(** * Erupe channel server: shallow embedding and verified properties

    The embedding follows [server/channelserver/sys_channel_server.go]
    (the channel server: raviente multiplier, server construction, session
    manager, broadcast engine, object lookup, semaphore-id allocator) and
    the guild-member data access file of the same package.

    Conventions.
    - Go's fixed-width unsigned integers are [Z] values with the wrap-around
      written out ([Go.uint32]).
    - Go maps are stdpp [gmap]s.  A [range] over a map visits the entries in
      an order the language leaves unspecified; loops whose result may depend
      on that order take the visiting order as an explicit list.
    - A pointer to a struct is represented by the struct it points to; where
      the code compares pointers the struct carries its allocation identity
      (sessions), or the pointers are keys of a store (channel servers).
    - Logging and outbound enqueues are recorded as a trace of [Event]s.
    - Code of the repository that lies in other files (byteframe,
      pascalstring, mhfpacket, the language table, the raviente semaphore
      lookup) is taken as a parameter of the development. *)

From Stdlib Require Import ZArith Lia.
From stdpp Require Import gmap strings pretty list fin_maps.

Open Scope Z_scope.

(** ** Go primitives *)

Module Go.

Definition uint32_mod : Z := 2 ^ 32.

(** Conversion of an integer to [uint32]: arithmetic on [uint32] wraps. *)
Definition uint32 (n : Z) : Z := n mod uint32_mod.

Definition uint32_max : Z := uint32_mod - 1.

(** A Go evaluation either yields a value or panics at run time. *)
Inductive result (A : Type) : Type :=
| Ok (a : A)
| Panic (msg : string).

Arguments Ok {A} a.
Arguments Panic {A} msg.

(** Integer division [a / b] on [int]: truncated, panics on a zero divisor. *)
Definition int_div (a b : Z) : result Z :=
  if b =? 0 then Panic "integer divide by zero" else Ok (Z.quot a b).

End Go.

(** ** Data model *)

(** A [net.Conn] interface value: [None] is the nil interface. *)
Abbreviation Conn := (option positive) (only parsing).

(** Allocation identity of a [*Session]. *)
Abbreviation SessionRef := positive (only parsing).

(** Allocation identity of a [*Server]. *)
Abbreviation ServerRef := positive (only parsing).

(** Modelled from the spec: the [Semaphore] struct is declared elsewhere in the
    package.  It has a name, a numeric id and the set of joined
    session identities ([clients], of which the code takes [len]). *)
Record Semaphore : Type := mkSemaphore {
  id_semaphore : string;
  sem_id : Z;
  sem_clients : gset SessionRef;
}.

(** Modelled from the spec: the [Object] struct is declared elsewhere in the
    package.  It has an object id (unique within its stage) and an
    owning character id. *)
Record Object : Type := mkObject {
  obj_id : Z;
  ownerCharID : Z;
}.

(** Modelled from the spec: the [Stage] struct is declared elsewhere in the
    package.  It has a string key and a map from object id to
    object. *)
Record Stage : Type := mkStage {
  stage_id : string;
  objects : gmap Z Object;
}.

(** Modelled from the spec: [NewStage] is declared elsewhere in the
    package; it creates the named stage with no objects. *)
Definition NewStage (ID : string) : Stage :=
  {| stage_id := ID; objects := ∅ |}.

Record RavienteRegister : Type := mkRavienteRegister {
  nextTime : Z;
  startTime : Z;
  postTime : Z;
  killedTime : Z;
  ravienteType : Z;
  maxPlayers : Z;
  carveQuest : Z;
  register_slots : list Z;
}.

Record RavienteState : Type := mkRavienteState {
  stateData : list Z;
}.

Record RavienteSupport : Type := mkRavienteSupport {
  supportData : list Z;
}.

Record Raviente : Type := mkRaviente {
  register : RavienteRegister;
  state : RavienteState;
  support : RavienteSupport;
}.

(** Set up the Raviente variables for the server. *)
Definition NewRaviente : Raviente :=
  let ravienteRegister :=
    {| nextTime := 0; startTime := 0; postTime := 0; killedTime := 0;
       ravienteType := 0; maxPlayers := 0; carveQuest := 0;
       register_slots := replicate 5 0 |} in
  let ravienteState := {| stateData := replicate 29 0 |} in
  let ravienteSupport := {| supportData := replicate 25 0 |} in
  {| register := ravienteRegister;
     state := ravienteState;
     support := ravienteSupport |}.

(** State of a Go channel as far as the server observes it: the handoff
    channels are unbuffered, so the only state is whether [close] ran. *)
Record Chan : Type := mkChan {
  chan_closed : bool;
}.

Definition make_chan : Chan := {| chan_closed := false |}.

(** The fields of [Config] that are data (logger, database, bot and
    configuration handles are external collaborators). *)
Record Config : Type := mkConfig {
  cfg_ID : Z;
  cfg_Name : string;
  cfg_Enable : bool;
}.

(** A Go [error] value, by its message. *)
Abbreviation error := string (only parsing).

(** Structured fields of a log entry ([zap.Uint8], [zap.Uint32],
    [zap.Error]). *)
Inductive LogField : Type :=
| FieldUint (key : string) (v : Z)
| FieldError (err : error).

(** Entries of the trace of effects. *)
Inductive Event : Type :=
| LogError (msg : string) (fields : list LogField)
| LogWarn (msg : string) (fields : list LogField)
| QueueSendNonBlocking (session : SessionRef) (data : list Z)
| SessionStart (session : SessionRef).

Section ChannelServer.

(** The per-session protocol context ([clientctx.ClientContext]). *)
Context {ClientContext : Type}.

Record Session : Type := mkSession {
  sess_ref : SessionRef;
  charID : Z;
  clientContext : ClientContext;
}.

(** Server is a MHF channel server.  The logger, database, configuration
    and bot handles are external collaborators and carry no state of the
    model; the key of [userBinaryParts] is the pair (charID, index) of
    [userBinaryPartID]. *)
Record Server : Type := mkServer {
  Channels : list ServerRef;
  ID : Z;
  GlobalID : string;
  IP : string;
  Port : Z;
  acceptConns : Chan;
  deleteConns : Chan;
  sessions : gmap Conn Session;
  listener : option bool;
  isShuttingDown : bool;
  stages : gmap string Stage;
  dict : gmap string string;
  userBinaryParts : gmap (Z * Z) (list Z);
  semaphore : gmap string Semaphore;
  semaphoreIndex : Z;
  name : string;
  raviente : Raviente;
}.

Definition set_semaphoreIndex (v : Z) (s : Server) : Server :=
  {| Channels := Channels s; ID := ID s; GlobalID := GlobalID s; IP := IP s;
     Port := Port s; acceptConns := acceptConns s;
     deleteConns := deleteConns s; sessions := sessions s;
     listener := listener s; isShuttingDown := isShuttingDown s;
     stages := stages s; dict := dict s;
     userBinaryParts := userBinaryParts s; semaphore := semaphore s;
     semaphoreIndex := v; name := name s; raviente := raviente s |}.

Definition set_semaphore (v : gmap string Semaphore) (s : Server) : Server :=
  {| Channels := Channels s; ID := ID s; GlobalID := GlobalID s; IP := IP s;
     Port := Port s; acceptConns := acceptConns s;
     deleteConns := deleteConns s; sessions := sessions s;
     listener := listener s; isShuttingDown := isShuttingDown s;
     stages := stages s; dict := dict s;
     userBinaryParts := userBinaryParts s; semaphore := v;
     semaphoreIndex := semaphoreIndex s; name := name s;
     raviente := raviente s |}.

Definition set_sessions (v : gmap Conn Session) (s : Server) : Server :=
  {| Channels := Channels s; ID := ID s; GlobalID := GlobalID s; IP := IP s;
     Port := Port s; acceptConns := acceptConns s;
     deleteConns := deleteConns s; sessions := v;
     listener := listener s; isShuttingDown := isShuttingDown s;
     stages := stages s; dict := dict s;
     userBinaryParts := userBinaryParts s; semaphore := semaphore s;
     semaphoreIndex := semaphoreIndex s; name := name s;
     raviente := raviente s |}.

Definition set_isShuttingDown (v : bool) (s : Server) : Server :=
  {| Channels := Channels s; ID := ID s; GlobalID := GlobalID s; IP := IP s;
     Port := Port s; acceptConns := acceptConns s;
     deleteConns := deleteConns s; sessions := sessions s;
     listener := listener s; isShuttingDown := v;
     stages := stages s; dict := dict s;
     userBinaryParts := userBinaryParts s; semaphore := semaphore s;
     semaphoreIndex := semaphoreIndex s; name := name s;
     raviente := raviente s |}.

Definition set_acceptConns (v : Chan) (s : Server) : Server :=
  {| Channels := Channels s; ID := ID s; GlobalID := GlobalID s; IP := IP s;
     Port := Port s; acceptConns := v;
     deleteConns := deleteConns s; sessions := sessions s;
     listener := listener s; isShuttingDown := isShuttingDown s;
     stages := stages s; dict := dict s;
     userBinaryParts := userBinaryParts s; semaphore := semaphore s;
     semaphoreIndex := semaphoreIndex s; name := name s;
     raviente := raviente s |}.

Definition set_listener (v : option bool) (s : Server) : Server :=
  {| Channels := Channels s; ID := ID s; GlobalID := GlobalID s; IP := IP s;
     Port := Port s; acceptConns := acceptConns s;
     deleteConns := deleteConns s; sessions := sessions s;
     listener := v; isShuttingDown := isShuttingDown s;
     stages := stages s; dict := dict s;
     userBinaryParts := userBinaryParts s; semaphore := semaphore s;
     semaphoreIndex := semaphoreIndex s; name := name s;
     raviente := raviente s |}.

(** [range m]: the entries of a map in the order one particular [range]
    loop visits them.  Loops whose outcome could depend on the order are
    given the order explicitly (see [FindObjectByChar_in]). *)
Definition range {K : Type} `{Countable K} {V : Type} (m : gmap K V)
  : list (K * V) := map_to_list m.

(** *** Raviente multiplier *)

(** [getRaviSemaphore] is declared elsewhere in the package: it picks the
    semaphore associated with the raviente event, or nil. *)
Context (getRaviSemaphore : Server -> option Semaphore).

(** The [float64] results of [GetRaviMultiplier] are conversions of [int]
    values between 0 and 24, which [float64] represents exactly; a result is
    written as the integer it denotes. *)
Definition GetRaviMultiplier (r : Raviente) (s : Server) : Go.result Z :=
  let raviSema := getRaviSemaphore s in
  match raviSema with
  | Some raviSema =>
      let minPlayers :=
        if 8 <? maxPlayers (register r) then 24 else 4 in
      let len_clients := Z.of_nat (size (sem_clients raviSema)) in
      if minPlayers <? len_clients then Go.Ok 1
      else Go.int_div minPlayers len_clients
  | None => Go.Ok 0
  end.

(** *** Server construction *)

(** [getLangStrings] is declared elsewhere in the package: it builds the
    localisation dictionary. *)
Context (getLangStrings : Server -> gmap string string).

Definition set_stage (k : string) (st : Stage) (s : Server) : Server :=
  {| Channels := Channels s; ID := ID s; GlobalID := GlobalID s; IP := IP s;
     Port := Port s; acceptConns := acceptConns s;
     deleteConns := deleteConns s; sessions := sessions s;
     listener := listener s; isShuttingDown := isShuttingDown s;
     stages := <[k := st]> (stages s); dict := dict s;
     userBinaryParts := userBinaryParts s;
     semaphore := semaphore s; semaphoreIndex := semaphoreIndex s;
     name := name s; raviente := raviente s |}.

Definition set_dict (v : gmap string string) (s : Server) : Server :=
  {| Channels := Channels s; ID := ID s; GlobalID := GlobalID s; IP := IP s;
     Port := Port s; acceptConns := acceptConns s;
     deleteConns := deleteConns s; sessions := sessions s;
     listener := listener s; isShuttingDown := isShuttingDown s;
     stages := stages s; dict := v;
     userBinaryParts := userBinaryParts s;
     semaphore := semaphore s; semaphoreIndex := semaphoreIndex s;
     name := name s; raviente := raviente s |}.

(** NewServer creates a new Server type.  Fields the composite literal
    leaves out take their zero value. *)
Definition NewServer (config : Config) : Server :=
  let s :=
    {| Channels := [];
       ID := cfg_ID config;
       GlobalID := "";
       IP := "";
       Port := 0;
       acceptConns := make_chan;
       deleteConns := make_chan;
       sessions := ∅;
       listener := None;
       isShuttingDown := false;
       stages := ∅;
       dict := ∅;
       userBinaryParts := ∅;
       semaphore := ∅;
       semaphoreIndex := 7;
       name := cfg_Name config;
       raviente := NewRaviente |} in
  (* Mezeporta *)
  let s := set_stage "sl1Ns200p0a0u0" (NewStage "sl1Ns200p0a0u0") s in
  (* Rasta bar stage *)
  let s := set_stage "sl1Ns211p0a0u0" (NewStage "sl1Ns211p0a0u0") s in
  (* Pallone Carvan *)
  let s := set_stage "sl1Ns260p0a0u0" (NewStage "sl1Ns260p0a0u0") s in
  (* Pallone Guest House 1st Floor *)
  let s := set_stage "sl1Ns262p0a0u0" (NewStage "sl1Ns262p0a0u0") s in
  (* Pallone Guest House 2nd Floor *)
  let s := set_stage "sl1Ns263p0a0u0" (NewStage "sl1Ns263p0a0u0") s in
  (* Diva fountain / prayer fountain. *)
  let s := set_stage "sl2Ns379p0a0u0" (NewStage "sl2Ns379p0a0u0") s in
  (* MezFes *)
  let s := set_stage "sl1Ns462p0a0u0" (NewStage "sl1Ns462p0a0u0") s in
  set_dict (getLangStrings s) s.

(** *** Semaphore-id allocator *)

(** The inner loop of [NextSemaphoreID]: visit every semaphore and raise
    the flag on a match (no early exit). *)
Definition semaphore_id_exists (sems : gmap string Semaphore) (idx : Z)
  : bool :=
  fold_left
    (fun exists_ kv => if sem_id kv.2 =? idx then true else exists_)
    (range sems) false.

(** One pass of the outer loop: advance the cursor, skip the reserved
    indexes on overflow, then scan for a collision.  Returns the updated
    server and the value of [exists]. *)
Definition NextSemaphoreID_pass (s : Server) : Server * bool :=
  let s := set_semaphoreIndex (Go.uint32 (semaphoreIndex s + 1)) s in
  let s :=
    if semaphoreIndex s =? 0
    then set_semaphoreIndex 7 s (* Skip reserved indexes *)
    else s in
  (s, semaphore_id_exists (semaphore s) (semaphoreIndex s)).

(** The unbounded [for] loop, with the number of passes bounded by
    [fuel]; [None] means the bound was reached before the loop exited. *)
Fixpoint NextSemaphoreID (fuel : nat) (s : Server) : option (Z * Server) :=
  match fuel with
  | O => None
  | S fuel' =>
      let '(s', exists_) := NextSemaphoreID_pass s in
      if exists_ then NextSemaphoreID fuel' s'
      else Some (semaphoreIndex s', s')
  end.

(** *** Object lookup *)

(** The inner loop of [FindObjectByChar] over one stage: the object ids
    are visited in the order [objIds]; each is looked up in the stage
    ([obj := stage.objects[objId]], nil for a missing key, whose field
    access panics) and the first object owned by [charID] is returned. *)
Fixpoint scan_stage_objects (stage : Stage) (objIds : list Z) (charID : Z)
  : Go.result (option Object) :=
  match objIds with
  | [] => Go.Ok None
  | objId :: objIds' =>
      match objects stage !! objId with
      | None => Go.Panic "nil pointer dereference"
      | Some obj =>
          if ownerCharID obj =? charID then Go.Ok (Some obj)
          else scan_stage_objects stage objIds' charID
      end
  end.

(** [FindObjectByChar] for a given visiting order: [visit] lists the
    entries of [s.stages] in the order the outer [range] yields them, and
    [objOrder k] lists the object ids of the stage under key [k] in the
    order the inner [range] yields them.  [Go.Ok None] is the nil result. *)
Fixpoint FindObjectByChar_in (visit : list (string * Stage))
    (objOrder : string -> list Z) (charID : Z) : Go.result (option Object) :=
  match visit with
  | [] => Go.Ok None
  | (k, stage) :: visit' =>
      match scan_stage_objects stage (objOrder k) charID with
      | Go.Ok (Some obj) => Go.Ok (Some obj)
      | Go.Ok None => FindObjectByChar_in visit' objOrder charID
      | Go.Panic msg => Go.Panic msg
      end
  end.

(** The keys of a stage's objects in one particular order. *)
Definition object_ids (st : Stage) : list Z := (range (objects st)).*1.

(** [FindObjectByChar] in one particular visiting order. *)
Definition FindObjectByChar (s : Server) (charID : Z)
  : Go.result (option Object) :=
  FindObjectByChar_in (range (stages s))
    (fun k => from_option object_ids [] (stages s !! k)) charID.

(** *** Broadcast engine *)

(** [byteframe.ByteFrame] is declared in another package; the
    operations used here are an interface the development is parametric
    in. *)
Class ByteFrameOps (ByteFrame : Type) : Type := {
  NewByteFrame : ByteFrame;
  SetLE : ByteFrame -> ByteFrame;
  WriteUint16 : ByteFrame -> Z -> ByteFrame;
  WriteUint32 : ByteFrame -> Z -> ByteFrame;
  WriteBytes : ByteFrame -> list Z -> ByteFrame;
  Data : ByteFrame -> list Z;
}.

Context {ByteFrame : Type} `{!ByteFrameOps ByteFrame}.

(** [pascalstring.Uint16], declared in another package. *)
Context (ps_Uint16 : ByteFrame -> string -> bool -> ByteFrame).

(** The [mhfpacket.MHFPacket] interface, as far as the server uses it. *)
Class MHFPacket (P : Type) : Type := {
  Opcode : P -> Z;
  Build : P -> ByteFrame -> ClientContext -> ByteFrame;
}.

(** The fields of [mhfpacket.MsgSysCastedBinary] the server sets. *)
Record MsgSysCastedBinary : Type := mkMsgSysCastedBinary {
  CharID : Z;
  BroadcastType : Z;
  MessageType : Z;
  RawDataPayload : list Z;
}.

Context `{!MHFPacket MsgSysCastedBinary}.

(** Constants declared elsewhere in the package. *)
Context (BroadcastTypeServer BinaryMessageTypeChat : Z).

(** The bytes enqueued for one session: the opcode header, then the
    packet built for the session's protocol context. *)
Definition session_encoding {P : Type} `{!MHFPacket P} (pkt : P)
    (session : Session) : list Z :=
  (* Make the header *)
  let bf := NewByteFrame in
  let bf := WriteUint16 bf (Opcode pkt) in
  (* Build the packet onto the byteframe. *)
  let bf := Build pkt bf (clientContext session) in
  Data bf.

(** The body of the loop of [BroadcastMHF] for one session. *)
Definition BroadcastMHF_session {P : Type} `{!MHFPacket P} (pkt : P)
    (ignoredSession : option SessionRef) (session : Session) : list Event :=
  if decide (Some (sess_ref session) = ignoredSession) then []
  else
    (* Enqueue in a non-blocking way that drops the packet if the
       connections send buffer channel is full. *)
    [QueueSendNonBlocking (sess_ref session) (session_encoding pkt session)].

(** BroadcastMHF queues a MHFPacket to be sent to all sessions; [visit]
    lists the entries of [s.sessions] in the order [range] yields them.
    [ignoredSession] is [None] for nil. *)
Definition BroadcastMHF_in {P : Type} `{!MHFPacket P}
    (visit : list (Conn * Session)) (pkt : P)
    (ignoredSession : option SessionRef) : list Event :=
  flat_map (fun kv => BroadcastMHF_session pkt ignoredSession kv.2) visit.

Definition BroadcastMHF {P : Type} `{!MHFPacket P} (s : Server) (pkt : P)
    (ignoredSession : option SessionRef) : list Event :=
  BroadcastMHF_in (range (sessions s)) pkt ignoredSession.

(** A computation with a trace of effects that may panic: the events
    emitted so far and the outcome. *)
Definition Eff (A : Type) : Type := list Event * Go.result A.

Definition eff_ret {A : Type} (a : A) : Eff A := ([], Go.Ok a).

Definition eff_bind {A B : Type} (f : A -> Eff B) (m : Eff A) : Eff B :=
  match m with
  | (tr, Go.Ok a) => let '(tr', r) := f a in (tr ++ tr', r)
  | (tr, Go.Panic msg) => (tr, Go.Panic msg)
  end.

#[export] Instance Eff_ret : MRet Eff := @eff_ret.
#[export] Instance Eff_bind : MBind Eff := @eff_bind.

Definition eff_emit (tr : list Event) : Eff unit := (tr, Go.Ok tt).

(** Dereference of a [*Server] held in [Channels] or used as receiver. *)
Definition eff_deref (σ : gmap ServerRef Server) (c : ServerRef)
  : Eff Server :=
  match σ !! c with
  | Some srv => eff_ret srv
  | None => ([], Go.Panic "nil pointer dereference")
  end.

(** The loop of [WorldcastMHF] over [s.Channels]; the servers the
    pointers refer to are read from the store [σ] of channel servers. *)
Fixpoint WorldcastMHF_channels {P : Type} `{!MHFPacket P}
    (σ : gmap ServerRef Server) (channels : list ServerRef) (pkt : P)
    (ignoredSession : option SessionRef) (ignoredChannel : option ServerRef)
  : Eff unit :=
  match channels with
  | [] => eff_ret tt
  | c :: channels' =>
      (if decide (Some c = ignoredChannel) then eff_ret tt
       else
         srv ← eff_deref σ c;
         eff_emit (BroadcastMHF srv pkt ignoredSession));;
      WorldcastMHF_channels σ channels' pkt ignoredSession ignoredChannel
  end.

Definition WorldcastMHF {P : Type} `{!MHFPacket P}
    (σ : gmap ServerRef Server) (s : Server) (pkt : P)
    (ignoredSession : option SessionRef) (ignoredChannel : option ServerRef)
  : Eff unit :=
  WorldcastMHF_channels σ (Channels s) pkt ignoredSession ignoredChannel.

(** Indexing a Go map of strings: the zero value for a missing key. *)
Definition dict_get (d : gmap string string) (k : string) : string :=
  default "" (d !! k).

(** [BroadcastRaviente] with receiver [self] (the [*Server] the method is
    called on); [_type] is a [uint8]. *)
Definition BroadcastRaviente (σ : gmap ServerRef Server) (self : ServerRef)
    (ip port : Z) (stage : list Z) (_type : Z) : Eff unit :=
  s ← eff_deref σ self;
  let bf := NewByteFrame in
  let bf := SetLE bf in
  let bf := WriteUint16 bf 0 in (* Unk *)
  let bf := WriteUint16 bf 0x43 in (* Data len *)
  let bf := WriteUint16 bf 3 in (* Unk len *)
  let text := "" in
  text ←
    match _type with
    | 2 => eff_ret (dict_get (dict s) "ravienteBerserk")
    | 3 => eff_ret (dict_get (dict s) "ravienteExtreme")
    | 4 => eff_ret (dict_get (dict s) "ravienteExtremeLimited")
    | 5 => eff_ret (dict_get (dict s) "ravienteBerserkSmall")
    | _ =>
        eff_emit [LogError "Unk raviente type" [FieldUint "_type" _type]];;
        eff_ret text
    end;
  let bf := ps_Uint16 bf text true in
  let bf := WriteBytes bf [0x5F; 0x53; 0x00] in
  let bf := WriteUint32 bf ip in (* IP address *)
  let bf := WriteUint16 bf port in (* Port *)
  let bf := WriteUint16 bf 0 in (* Unk *)
  let bf := WriteBytes bf stage in
  WorldcastMHF σ s
    {| CharID := 0x00000000;
       BroadcastType := BroadcastTypeServer;
       MessageType := BinaryMessageTypeChat;
       RawDataPayload := Data bf |}
    None (Some self).

(** *** Session manager and shutdown *)

(** Modelled from the spec: [NewSession] is declared elsewhere in the
    package; it constructs the session of a connection, not yet logged in
    (character id 0).  [ref] is the identity of the fresh allocation and
    [newClientContext] the protocol context a new session starts with. *)
Context (newClientContext : ClientContext).

Definition NewSession (ref : SessionRef) (s : Server) (conn : Conn)
  : Session :=
  {| sess_ref := ref; charID := 0; clientContext := newClientContext |}.

(** Start, as far as the shared state goes: the listener is created (the
    case in which [net.Listen] succeeds); the acceptor and the session
    manager are the goroutines of [System] below. *)
Definition Start (s : Server) : Server := set_listener (Some true) s.

(** The statements of [Shutdown], one at a time. *)
Inductive ShutdownPC : Type :=
| ShutdownNotCalled
| ShutdownFlagSet
| ShutdownListenerClosed
| ShutdownDone.

(** The next statement of [Shutdown]; [None] when there is none or it
    panics (nil listener, or [close] of a closed channel). *)
Definition Shutdown_step (pc : ShutdownPC) (s : Server)
  : option (ShutdownPC * Server) :=
  match pc with
  | ShutdownNotCalled =>
      (* s.Lock(); s.isShuttingDown = true; s.Unlock() *)
      Some (ShutdownFlagSet, set_isShuttingDown true s)
  | ShutdownFlagSet =>
      (* s.listener.Close() *)
      match listener s with
      | Some _ => Some (ShutdownListenerClosed, set_listener (Some false) s)
      | None => None
      end
  | ShutdownListenerClosed =>
      (* close(s.acceptConns) *)
      if chan_closed (acceptConns s) then None
      else Some (ShutdownDone,
                 set_acceptConns {| chan_closed := true |} s)
  | ShutdownDone => None
  end.

(** Where the acceptor goroutine stands: blocked in [Accept], holding an
    accepted connection it is about to hand off, or out of its loop.  A
    connection [Accept] returns without error is not nil. *)
Inductive AcceptorPC : Type :=
| AcceptorAccept
| AcceptorSend (conn : positive)
| AcceptorStopped.

(** The branch of [acceptClients] taken when [Accept] returns an error:
    leave the loop during shutdown, otherwise warn and accept again. *)
Definition acceptClients_error (s : Server) (err : error)
  : AcceptorPC * list Event :=
  let shutdown := isShuttingDown s in
  if shutdown then (AcceptorStopped, [])
  else (AcceptorAccept, [LogWarn "Error accepting client" [FieldError err]]).

(** What [<-s.acceptConns] yields, if it can proceed: the zero value
    (nil) once the channel is closed, otherwise the connection the
    acceptor is sending, if it is at its send. *)
Definition recv_acceptConns (s : Server) (acceptor : AcceptorPC)
  : option Conn :=
  if chan_closed (acceptConns s) then Some None
  else
    match acceptor with
    | AcceptorSend conn => Some (Some conn)
    | _ => None
    end.

Inductive LoopControl : Type := LoopContinue | LoopReturn.

(** The body of [case newConn := <-s.acceptConns]. *)
Definition manageSessions_newConn (ref : SessionRef) (s : Server)
    (newConn : Conn) : Server * list Event * LoopControl :=
  (* Gracefully handle acceptConns channel closing. *)
  let returns :=
    match newConn with
    | None =>
        let shutdown := isShuttingDown s in
        shutdown
    | Some _ => false
    end in
  if returns then (s, [], LoopReturn)
  else
    let session := NewSession ref s newConn in
    let s := set_sessions (<[newConn := session]> (sessions s)) s in
    (s, [SessionStart (sess_ref session)], LoopContinue).

(** The body of [case delConn := <-s.deleteConns]. *)
Definition manageSessions_delConn (s : Server) (delConn : Conn) : Server :=
  set_sessions (delete delConn (sessions s)) s.

(** Where the session-manager goroutine stands: blocked in [select],
    holding a value just received from [acceptConns], or returned. *)
Inductive ManagerPC : Type :=
| ManagerSelect
| ManagerReceived (newConn : Conn)
| ManagerReturned.

(** The server together with the goroutines that act on the handoff
    channel, the session set and the shutdown flag. *)
Record System : Type := mkSystem {
  sys_server : Server;
  sys_acceptor : AcceptorPC;
  sys_manager : ManagerPC;
  sys_shutdown : ShutdownPC;
  sys_nextRef : SessionRef;
  sys_trace : list Event;
}.

(** Atomic steps of the system, interleaved in any order: [Accept]
    returning a connection or an error, the next statement of [Shutdown],
    and the manager's receives and case body. *)
Inductive Step : Type :=
| StepAccepted (conn : positive)
| StepAcceptError (err : error)
| StepShutdown
| StepManagerRecvAccept
| StepManagerNewConn
| StepManagerRecvDelete (delConn : Conn).

Definition sys_step (st : System) (l : Step) : option System :=
  match l with
  | StepAccepted conn =>
      match sys_acceptor st, listener (sys_server st) with
      | AcceptorAccept, Some true =>
          Some {| sys_server := sys_server st;
                  sys_acceptor := AcceptorSend conn;
                  sys_manager := sys_manager st;
                  sys_shutdown := sys_shutdown st;
                  sys_nextRef := sys_nextRef st;
                  sys_trace := sys_trace st |}
      | _, _ => None
      end
  | StepAcceptError err =>
      match sys_acceptor st with
      | AcceptorAccept =>
          let '(pc, tr) := acceptClients_error (sys_server st) err in
          Some {| sys_server := sys_server st;
                  sys_acceptor := pc;
                  sys_manager := sys_manager st;
                  sys_shutdown := sys_shutdown st;
                  sys_nextRef := sys_nextRef st;
                  sys_trace := sys_trace st ++ tr |}
      | _ => None
      end
  | StepShutdown =>
      match Shutdown_step (sys_shutdown st) (sys_server st) with
      | Some (pc, s) =>
          Some {| sys_server := s;
                  sys_acceptor := sys_acceptor st;
                  sys_manager := sys_manager st;
                  sys_shutdown := pc; sys_nextRef := sys_nextRef st;
                  sys_trace := sys_trace st |}
      | None => None
      end
  | StepManagerRecvAccept =>
      match sys_manager st,
            recv_acceptConns (sys_server st) (sys_acceptor st) with
      | ManagerSelect, Some newConn =>
          Some {| sys_server := sys_server st;
                  sys_acceptor :=
                    match newConn with
                    | Some _ => AcceptorAccept
                    | None => sys_acceptor st
                    end;
                  sys_manager := ManagerReceived newConn;
                  sys_shutdown := sys_shutdown st;
                  sys_nextRef := sys_nextRef st;
                  sys_trace := sys_trace st |}
      | _, _ => None
      end
  | StepManagerNewConn =>
      match sys_manager st with
      | ManagerReceived newConn =>
          let '(s, tr, ctl) :=
            manageSessions_newConn (sys_nextRef st) (sys_server st) newConn in
          Some {| sys_server := s;
                  sys_acceptor := sys_acceptor st;
                  sys_manager :=
                    match ctl with
                    | LoopContinue => ManagerSelect
                    | LoopReturn => ManagerReturned
                    end;
                  sys_shutdown := sys_shutdown st;
                  sys_nextRef :=
                    match ctl with
                    | LoopContinue => Pos.succ (sys_nextRef st)
                    | LoopReturn => sys_nextRef st
                    end;
                  sys_trace := sys_trace st ++ tr |}
      | _ => None
      end
  | StepManagerRecvDelete delConn =>
      match sys_manager st with
      | ManagerSelect =>
          Some {| sys_server := manageSessions_delConn (sys_server st) delConn;
                  sys_acceptor := sys_acceptor st;
                  sys_manager := ManagerSelect;
                  sys_shutdown := sys_shutdown st;
                  sys_nextRef := sys_nextRef st;
                  sys_trace := sys_trace st |}
      | _ => None
      end
  end.

(** The system after [NewServer] and [Start]. *)
Definition sys_init (config : Config) : System :=
  {| sys_server := Start (NewServer config);
     sys_acceptor := AcceptorAccept;
     sys_manager := ManagerSelect;
     sys_shutdown := ShutdownNotCalled;
     sys_nextRef := 1%positive;
     sys_trace := [] |}.

Fixpoint sys_run (st : System) (steps : list Step) : option System :=
  match steps with
  | [] => Some st
  | l :: steps' =>
      match sys_step st l with
      | Some st' => sys_run st' steps'
      | None => None
      end
  end.

End ChannelServer.

Arguments Session : clear implicits.
Arguments Server : clear implicits.
Arguments NextSemaphoreID_pass : simpl never.
Arguments System : clear implicits.

(** ** Guild-member data access *)

Record GuildMember : Type := mkGuildMember {
  GuildID : Z;
  gm_CharID : Z;
  JoinedAt : option Z;
  Souls : Z;
  RPToday : Z;
  RPYesterday : Z;
  Name : string;
  IsApplicant : bool;
  OrderIndex : Z;
  LastLogin : Z;
  Recruiter : bool;
  AvoidLeadership : bool;
  IsLeader : bool;
  HRP : Z;
  GR : Z;
  WeaponID : Z;
  WeaponType : Z;
}.

Definition CanRecruit (gm : GuildMember) : bool :=
  if Recruiter gm then true
  else if OrderIndex gm <=? 3 then true
  else if IsLeader gm then true
  else false.

Definition IsSubLeader (gm : GuildMember) : bool := OrderIndex gm <=? 3.

Definition guildMembersSelectSQL : string := "
SELECT
	g.id as guild_id,
	joined_at,
	coalesce(souls, 0) as souls,
	COALESCE(rp_today, 0) AS rp_today,
	COALESCE(rp_yesterday, 0) AS rp_yesterday,
	c.name,
	character.character_id,
	coalesce(gc.order_index, 0) as order_index,
	c.last_login,
	coalesce(gc.recruiter, false) as recruiter,
	coalesce(gc.avoid_leadership, false) as avoid_leadership,
	c.hrp,
	c.gr,
	c.weapon_id,
	c.weapon_type,
	character.is_applicant,
	CASE WHEN g.leader_id = c.id THEN 1 ELSE 0 END as is_leader
	FROM (
		SELECT character_id, true as is_applicant, guild_id
		FROM guild_applications ga
		WHERE ga.application_type = 'applied'
		UNION
		SELECT character_id, false as is_applicant, guild_id
		FROM guild_characters gc
	) character
	JOIN characters c on character.character_id = c.id
	LEFT JOIN guild_characters gc ON gc.character_id = character.character_id
	JOIN guilds g ON g.id = character.guild_id
".

Section GuildData.

(** A row of a query result, as the database driver holds it. *)
Context {Row : Type}.

(** [sqlx.Rows]: a cursor over the result rows not yet visited, and the
    row it stands on. *)
Record Rows : Type := mkRows {
  rows_pending : list Row;
  rows_current : option Row;
}.

(** [rows.Next()]: advance to the next row, if there is one. *)
Definition Rows_Next (rows : Rows) : bool * Rows :=
  match rows_pending rows with
  | [] => (false, {| rows_pending := []; rows_current := None |})
  | r :: pending =>
      (true, {| rows_pending := pending; rows_current := Some r |})
  end.

(** The database ([s.server.db]) as the function from a query and its
    arguments to the outcome of [Queryx]: an error, or the result rows. *)
Context (Queryx : string -> list Z -> error + list Row).

(** Decoding of one row into the struct ([StructScan]). *)
Context (scan_row : Row -> error + GuildMember).

Definition Rows_StructScan (rows : Rows) : error + GuildMember :=
  match rows_current rows with
  | Some r => scan_row r
  | None => inl "sql: Scan called without calling Next"
  end.

(** The result pair (member, error), nil written [None]. *)
Definition buildGuildMemberObjectFromDBResult (rows : Rows)
    (err : option error)
  : list Event * (option GuildMember * option error) :=
  let err := Rows_StructScan rows in
  match err with
  | inl err =>
      ([LogError "failed to retrieve guild data from database"
          [FieldError err]],
       (None, Some err))
  | inr memberData => ([], (Some memberData, None))
  end.

(** The query text of [GetCharacterGuildData]. *)
Definition characterGuildDataSQL : string :=
  guildMembersSelectSQL
    +:+ String (Ascii.ascii_of_nat 9) "WHERE character.character_id=$1".

Definition GetCharacterGuildData (charID : Z)
  : list Event * (option GuildMember * option error) :=
  match Queryx characterGuildDataSQL [charID] with
  | inl err =>
      ([LogError
          ("failed to retrieve membership data for character '"
             +:+ pretty charID +:+ "'") []],
       (None, Some err))
  | inr result =>
      let rows := {| rows_pending := result; rows_current := None |} in
      let '(hasRow, rows) := Rows_Next rows in
      if negb hasRow then ([], (None, None))
      else buildGuildMemberObjectFromDBResult rows None
  end.

End GuildData.

Arguments Rows : clear implicits.

(** ** Vocabulary of the properties *)

(** Ids below 7 are reserved: a fresh server's cursor starts at 7, and the
    cursor is sent back to 7 when it overflows. *)
Definition first_unreserved_id : Z := 7.

Definition reserved_id (i : Z) : Prop := 0 <= i < first_unreserved_id.

(** The ids the allocator can hand out. *)
Definition allocatable_id (i : Z) : Prop :=
  first_unreserved_id <= i < Go.uint32_mod.

(** [i] is the id of a live semaphore of the map. *)
Definition live_id (sems : gmap string Semaphore) (i : Z) : Prop :=
  exists k sem, sems !! k = Some sem /\ sem_id sem = i.

(** Number of joined sessions of a semaphore ([len(sema.clients)]). *)
Definition occupancy (sem : Semaphore) : Z :=
  Z.of_nat (size (sem_clients sem)).

(** The minimum-player threshold chosen from the max-player target. *)
Definition ravi_threshold (r : Raviente) : Z :=
  if 8 <? maxPlayers (register r) then 24 else 4.

(** The multiplier as the specification words it, with floor division. *)
Definition multiplier_of_spec (r : Raviente) (sem : option Semaphore) : Z :=
  match sem with
  | None => 0
  | Some sem =>
      if ravi_threshold r <? occupancy sem then 1
      else ravi_threshold r / occupancy sem
  end.

(** The cursor value one pass of [NextSemaphoreID] moves to. *)
Definition next_cursor (c : Z) : Z :=
  let c' := Go.uint32 (c + 1) in
  if c' =? 0 then first_unreserved_id else c'.

(** Number of passes that take the cursor from [c] to [i], both
    allocatable: the cursor walks upwards and goes from the top of the
    [uint32] range to [first_unreserved_id]. *)
Definition cursor_distance (c i : Z) : Z :=
  if c <? i then i - c
  else i - c + (Go.uint32_mod - first_unreserved_id).

Section PropertyVocabulary.

Context {ClientContext : Type}.

(** The object under id [objId] of the stage under key [k] is [obj] and
    belongs to [charID]. *)
Definition owns_object (s : Server ClientContext) (charID : Z) (k : string)
    (objId : Z) (obj : Object) : Prop :=
  exists st,
    stages s !! k = Some st /\ objects st !! objId = Some obj
    /\ ownerCharID obj = charID.

(** [visit] and [objOrder] are orders in which the two [range] loops of
    [FindObjectByChar] may go through the stages of [s] and through the
    objects of each stage: every entry once, in any order. *)
Definition stage_visit (s : Server ClientContext)
    (visit : list (string * Stage)) (objOrder : string -> list Z) : Prop :=
  visit ≡ₚ map_to_list (stages s)
  /\ forall k st, stages s !! k = Some st ->
       objOrder k ≡ₚ (map_to_list (objects st)).*1.

(** The payloads of the enqueue attempts a trace makes on one session,
    in order. *)
Definition enqueues_to (ref : SessionRef) (tr : list Event)
  : list (list Z) :=
  flat_map
    (fun e =>
       match e with
       | QueueSendNonBlocking r data =>
           if decide (r = ref) then [data] else []
       | _ => []
       end) tr.

(** The session pointers held in the session map are pairwise distinct:
    one session per connection. *)
Definition sessions_distinct (s : Server ClientContext) : Prop :=
  NoDup ((fun kv => sess_ref kv.2) <$> map_to_list (sessions s)).

(** What holds of the shutdown flag, the handoff channel and the session
    set in every state of the system. *)
Definition manager_invariant (st : System ClientContext) : Prop :=
  (sys_shutdown st <> ShutdownNotCalled ->
     isShuttingDown (sys_server st) = true)
  /\ (chan_closed (acceptConns (sys_server st)) = true ->
       isShuttingDown (sys_server st) = true)
  /\ (sys_manager st = ManagerReceived None ->
       isShuttingDown (sys_server st) = true)
  /\ sessions (sys_server st) !! (None : Conn) = None.

(** Every session of the session set was allocated by the manager, and
    no two connections share a session. *)
Definition manager_sessions_fresh (st : System ClientContext) : Prop :=
  (forall c session, sessions (sys_server st) !! c = Some session ->
     (sess_ref session < sys_nextRef st)%positive)
  /\ (forall c1 c2 session1 session2,
        sessions (sys_server st) !! c1 = Some session1 ->
        sessions (sys_server st) !! c2 = Some session2 ->
        sess_ref session1 = sess_ref session2 -> c1 = c2).

End PropertyVocabulary.

Section AnnouncementVocabulary.

Context {ClientContext ByteFrame : Type} `{!ByteFrameOps ByteFrame}.
Context (ps_Uint16 : ByteFrame -> string -> bool -> ByteFrame).
Context `{!MHFPacket (ClientContext:=ClientContext) (ByteFrame:=ByteFrame)
            MsgSysCastedBinary}.
Context (BroadcastTypeServer BinaryMessageTypeChat : Z).

(** The payload of a raviente announcement with the given text body. *)
Definition raviente_payload (text : string) (ip port : Z) (stage : list Z)
  : list Z :=
  Data
    (WriteBytes
       (WriteUint16
          (WriteUint16
             (WriteUint32
                (WriteBytes
                   (ps_Uint16
                      (WriteUint16
                         (WriteUint16 (WriteUint16 (SetLE NewByteFrame) 0) 67)
                         3)
                      text true)
                   [95; 83; 0])
                ip)
             port)
          0)
       stage).

(** The announcement: a casted-binary chat message of server broadcast
    type, addressed to character id 0, that is to no character. *)
Definition raviente_message (text : string) (ip port : Z) (stage : list Z)
  : MsgSysCastedBinary :=
  {| CharID := 0;
     BroadcastType := BroadcastTypeServer;
     MessageType := BinaryMessageTypeChat;
     RawDataPayload := raviente_payload text ip port stage |}.

(** The effects of a worldcast whose channels all exist: one channel
    broadcast per channel other than the ignored one, in order. *)
Definition worldcast_trace {P : Type}
    `{!MHFPacket (ClientContext:=ClientContext) (ByteFrame:=ByteFrame) P}
    (σ : gmap ServerRef (Server ClientContext)) (channels : list ServerRef)
    (pkt : P) (ignoredSession : option SessionRef)
    (ignoredChannel : option ServerRef) : list Event :=
  flat_map
    (fun c =>
       if decide (Some c = ignoredChannel) then []
       else
         from_option (fun srv => BroadcastMHF srv pkt ignoredSession) []
           (σ !! c))
    channels.

End AnnouncementVocabulary.

(** ** Concrete inputs used by the examples *)

Module Examples.

(** The protocol context of the examples: a client version number. *)
Definition Ctx : Type := Z.

(** A raviente-semaphore lookup for the examples: the semaphore registered
    under one fixed name. *)
Definition raviSemaphoreName : string := "hs_l0u3B51J9k3".

Definition getRaviSemaphore (s : Server Ctx) : option Semaphore :=
  semaphore s !! raviSemaphoreName.

Definition getLangStrings (_ : Server Ctx) : gmap string string :=
  list_to_map
    [("ravienteBerserk", "berserk"); ("ravienteExtreme", "extreme");
     ("ravienteExtremeLimited", "extreme limited");
     ("ravienteBerserkSmall", "berserk small")].

Definition config : Config :=
  {| cfg_ID := 1; cfg_Name := "channel"; cfg_Enable := true |}.

Definition server0 : Server Ctx := NewServer getLangStrings config.

Definition raviSema (clients : list positive) : Semaphore :=
  {| id_semaphore := raviSemaphoreName; sem_id := 8;
     sem_clients := list_to_set clients |}.

(** A server whose raviente semaphore has the given joined sessions. *)
Definition serverWithRavi (clients : list positive) : Server Ctx :=
  set_semaphore {[ raviSemaphoreName := raviSema clients ]} server0.

(** A server whose cursor stands at the top of the [uint32] range while
    the ids 7 and 8 are held by live semaphores. *)
Definition serverAtTop : Server Ctx :=
  set_semaphoreIndex Go.uint32_max
    (set_semaphore
       (<["quest_a" := {| id_semaphore := "quest_a"; sem_id := 7;
                          sem_clients := ∅ |}]>
          {[ "quest_b" := {| id_semaphore := "quest_b"; sem_id := 8;
                             sem_clients := ∅ |} ]})
       server0).

(** A byte buffer with its byte order ([true] for little endian). *)
Definition Frame : Type := bool * list Z.

Definition frame_uint16 (bf : Frame) (v : Z) : Frame :=
  let hi := (v / 256) mod 256 in
  let lo := v mod 256 in
  (bf.1, bf.2 ++ (if bf.1 then [lo; hi] else [hi; lo])).

Definition frame_uint32 (bf : Frame) (v : Z) : Frame :=
  let b3 := (v / 16777216) mod 256 in
  let b2 := (v / 65536) mod 256 in
  let b1 := (v / 256) mod 256 in
  let b0 := v mod 256 in
  (bf.1, bf.2 ++ (if bf.1 then [b0; b1; b2; b3] else [b3; b2; b1; b0])).

Definition frameOps : ByteFrameOps Frame :=
  {| NewByteFrame := (false, []);
     SetLE := fun bf => (true, bf.2);
     WriteUint16 := frame_uint16;
     WriteUint32 := frame_uint32;
     WriteBytes := fun bf bytes => (bf.1, bf.2 ++ bytes);
     Data := fun bf => bf.2 |}.

(** A length-prefixed string writer for the examples. *)
Definition ps_Uint16 (bf : Frame) (text : string) (nullTerminate : bool)
  : Frame :=
  let bytes :=
    (fun c => Z.of_nat (Ascii.nat_of_ascii c)) <$> String.list_ascii_of_string text in
  let bytes := if nullTerminate then bytes ++ [0] else bytes in
  let bf := frame_uint16 bf (Z.of_nat (length bytes)) in
  (bf.1, bf.2 ++ bytes).

(** A packet encoder for the examples; the body starts with the client
    version of the session it is built for. *)
Definition castedBinaryPacket
  : MHFPacket (ClientContext:=Ctx) (ByteFrame:=Frame) MsgSysCastedBinary :=
  {| Opcode := fun _ => 31;
     Build := fun pkt bf ctx =>
       let bf := (bf.1, bf.2 ++ [ctx]) in
       let bf := frame_uint32 bf (CharID pkt) in
       let bf := (bf.1, bf.2 ++ [BroadcastType pkt; MessageType pkt]) in
       (bf.1, bf.2 ++ RawDataPayload pkt) |}.

Definition BroadcastTypeServer : Z := 6.
Definition BinaryMessageTypeChat : Z := 1.

Definition session (ref : positive) (ctx : Ctx) : Session Ctx :=
  {| sess_ref := ref; charID := Zpos ref + 100; clientContext := ctx |}.

(** A channel with three connected sessions. *)
Definition lobby : Server Ctx :=
  set_sessions
    (<[Some 11%positive := session 1 40]>
       (<[Some 12%positive := session 2 41]>
          {[ Some 13%positive := session 3 42 ]}))
    server0.

(** A second channel with one session. *)
Definition annex : Server Ctx :=
  set_sessions {[ Some 21%positive := session 4 43 ]} server0.

Definition withChannels (channels : list ServerRef) (s : Server Ctx)
  : Server Ctx :=
  {| Channels := channels; ID := ID s; GlobalID := GlobalID s; IP := IP s;
     Port := Port s; acceptConns := acceptConns s;
     deleteConns := deleteConns s; sessions := sessions s;
     listener := listener s; isShuttingDown := isShuttingDown s;
     stages := stages s; dict := dict s;
     userBinaryParts := userBinaryParts s; semaphore := semaphore s;
     semaphoreIndex := semaphoreIndex s; name := name s;
     raviente := raviente s |}.

(** A cluster of the two channels, each knowing both. *)
Definition cluster : gmap ServerRef (Server Ctx) :=
  <[1%positive := withChannels [1%positive; 2%positive] lobby]>
    {[ 2%positive := withChannels [1%positive; 2%positive] annex ]}.

Definition chatPacket : MsgSysCastedBinary :=
  {| CharID := 4294967295; BroadcastType := 0;
     MessageType := BinaryMessageTypeChat; RawDataPayload := [104; 105] |}.

(** A server with one object, owned by character 42, in the rasta bar. *)
Definition serverWithObject : Server Ctx :=
  set_stage "sl1Ns211p0a0u0"
    {| stage_id := "sl1Ns211p0a0u0";
       objects :=
         <[1 := {| obj_id := 1; ownerCharID := 41 |}]>
           {[ 2 := {| obj_id := 2; ownerCharID := 42 |} ]} |}
    server0.

(** The shutdown of a started server followed by the manager's receive
    from the closed handoff channel. *)
Definition shutdownSteps : list Step :=
  [StepAccepted 5%positive; StepManagerRecvAccept; StepManagerNewConn;
   StepShutdown; StepShutdown; StepAcceptError "use of closed connection";
   StepShutdown; StepManagerRecvAccept].

(** A database in which character 7 has no membership row, character 8
    has one, and queries about character 9 fail. *)
Definition Queryx (query : string) (args : list Z) : error + list Z :=
  match args with
  | [8] => inr [8]
  | [9] => inl "connection refused"
  | _ => inr []
  end.

Definition scan_row (row : Z) : error + GuildMember :=
  inr {| GuildID := 1; gm_CharID := row; JoinedAt := None; Souls := 0;
         RPToday := 0; RPYesterday := 0; Name := "hunter";
         IsApplicant := false; OrderIndex := 5; LastLogin := 0;
         Recruiter := false; AvoidLeadership := false; IsLeader := false;
         HRP := 1; GR := 0; WeaponID := 0; WeaponType := 0 |}.

End Examples.

(** ** Further operations of the channel server *)

(** The fields of [binpacket.MsgBinChat] the server sets ([chat_Type] is
    the field [Type]). *)
Record MsgBinChat : Type := mkMsgBinChat {
  Unk0 : Z;
  chat_Type : Z;
  Flags : Z;
  Message : string;
  SenderName : string;
}.

Section FurtherChannelServer.

Context {ClientContext ByteFrame : Type} `{!ByteFrameOps ByteFrame}.
Context `{!MHFPacket (ClientContext:=ClientContext) (ByteFrame:=ByteFrame)
            MsgSysCastedBinary}.
Context (BinaryMessageTypeChat : Z).

(** The [Build] method of [binpacket.MsgBinChat], declared in another
    package. *)
Context (MsgBinChat_Build : MsgBinChat -> ByteFrame -> ByteFrame).

(** BroadcastChatMessage broadcasts a simple chat message to all the
    sessions; [visit] is the order in which [BroadcastMHF] goes through
    the session map.  [BroadcastType] is left at its zero value. *)
Definition BroadcastChatMessage_in
    (visit : list (Conn * Session ClientContext))
    (s : Server ClientContext) (message : string) : list Event :=
  let bf := NewByteFrame in
  let bf := SetLE bf in
  let msgBinChat :=
    {| Unk0 := 0;
       chat_Type := 5;
       Flags := 0x80;
       Message := message;
       SenderName := name s |} in
  let bf := MsgBinChat_Build msgBinChat bf in
  BroadcastMHF_in visit
    {| CharID := 0xFFFFFFFF;
       BroadcastType := 0;
       MessageType := BinaryMessageTypeChat;
       RawDataPayload := Data bf |}
    None.

Definition BroadcastChatMessage (s : Server ClientContext)
    (message : string) : list Event :=
  BroadcastChatMessage_in (range (sessions s)) s message.

(** The inner loop of [FindSessionByCharID] over the sessions of one
    channel, in the order [visit]. *)
Fixpoint scan_sessions (visit : list (Conn * Session ClientContext))
    (charID' : Z) : option (Session ClientContext) :=
  match visit with
  | [] => None
  | (_, session) :: visit' =>
      if charID session =? charID' then Some session
      else scan_sessions visit' charID'
  end.

(** [FindSessionByCharID] over the slice [channels]: each pointer is read
    from the store [σ] (a nil pointer panics at [c.sessions]), and
    [sessOrder c] is the order in which the session map of channel [c] is
    visited.  [Go.Ok None] is the nil result. *)
Fixpoint FindSessionByCharID_in
    (σ : gmap ServerRef (Server ClientContext)) (channels : list ServerRef)
    (sessOrder : ServerRef -> list (Conn * Session ClientContext))
    (charID' : Z) : Go.result (option (Session ClientContext)) :=
  match channels with
  | [] => Go.Ok None
  | c :: channels' =>
      match σ !! c with
      | None => Go.Panic "nil pointer dereference"
      | Some _ =>
          match scan_sessions (sessOrder c) charID' with
          | Some session => Go.Ok (Some session)
          | None => FindSessionByCharID_in σ channels' sessOrder charID'
          end
      end
  end.

(** [FindSessionByCharID] in one particular visiting order. *)
Definition FindSessionByCharID
    (σ : gmap ServerRef (Server ClientContext)) (s : Server ClientContext)
    (charID' : Z) : Go.result (option (Session ClientContext)) :=
  FindSessionByCharID_in σ (Channels s)
    (fun c => from_option (fun srv => range (sessions srv)) [] (σ !! c))
    charID'.

(** Shutdown tries to shut down the server gracefully: the three
    statements in order.  The state reached is returned also when a
    statement panics (a nil listener, a channel already closed). *)
Definition Shutdown (s : Server ClientContext)
  : Server ClientContext * Go.result unit :=
  let s := set_isShuttingDown true s in
  match listener s with
  | None => (s, Go.Panic "nil pointer dereference")
  | Some _ =>
      let s := set_listener (Some false) s in
      if chan_closed (acceptConns s)
      then (s, Go.Panic "close of closed channel")
      else (set_acceptConns {| chan_closed := true |} s, Go.Ok tt)
  end.


(** [sessOrder c] is, for every channel [c] of the store, an order in
    which a [range] may go through its session map. *)
Definition session_visit (σ : gmap ServerRef (Server ClientContext))
    (sessOrder : ServerRef -> list (Conn * Session ClientContext)) : Prop :=
  forall c srv, σ !! c = Some srv -> sessOrder c ≡ₚ map_to_list (sessions srv).

(** Session [session] is registered in channel [c] of the store. *)
Definition session_in_channel (σ : gmap ServerRef (Server ClientContext))
    (c : ServerRef) (session : Session ClientContext) : Prop :=
  exists srv conn, σ !! c = Some srv /\ sessions srv !! conn = Some session.

(** How far [Shutdown] has come, against the flag and the channel. *)
Definition shutdown_progress (st : System ClientContext) : Prop :=
  (isShuttingDown (sys_server st) = true <->
     sys_shutdown st <> ShutdownNotCalled)
  /\ (chan_closed (acceptConns (sys_server st)) = true <->
       sys_shutdown st = ShutdownDone)
  /\ (sys_acceptor st = AcceptorStopped ->
       isShuttingDown (sys_server st) = true)
  /\ (sys_manager st = ManagerReceived None ->
       chan_closed (acceptConns (sys_server st)) = true)
  /\ (sys_manager st = ManagerReturned ->
       chan_closed (acceptConns (sys_server st)) = true).


End FurtherChannelServer.

(** No two live semaphores of the map share a numeric id. *)
Definition ids_distinct (sems : gmap string Semaphore) : Prop :=
  forall k1 k2 sem1 sem2,
    sems !! k1 = Some sem1 -> sems !! k2 = Some sem2 ->
    sem_id sem1 = sem_id sem2 -> k1 = k2.

(** ** Further guild-member data access *)

Section FurtherGuildData.

Context {Row : Type}.

(** The database as before; the arguments of a query are written as
    integers, a boolean as 0 or 1. *)
Context (Queryx : string -> list Z -> error + list Row).
Context (scan_row : Row -> error + GuildMember).

(** [db.Exec]: nil or the error of the statement. *)
Context (Exec : string -> list Z -> option error).

Definition guild_line_feed : string := String (Ascii.ascii_of_nat 10) "".
Definition guild_tab : string := String (Ascii.ascii_of_nat 9) "".

(** The query text of [GetGuildMembers]. *)
Definition guildMembersSQL : string :=
  guild_line_feed +:+ guild_tab +:+ guild_tab +:+ guild_tab
    +:+ guildMembersSelectSQL
    +:+ guild_line_feed +:+ guild_tab +:+ guild_tab +:+ guild_tab
    +:+ "WHERE character.guild_id = $1 AND is_applicant = $2"
    +:+ guild_line_feed +:+ guild_tab.

(** The loop [for rows.Next()] of [GetGuildMembers]: [pending] are the
    rows not yet visited and [members] the slice built so far, a slice
    of pointers.  A failed decoding returns at once, with a nil slice. *)
Fixpoint GetGuildMembers_rows (pending : list Row)
    (members : list (option GuildMember))
  : list Event * (option (list (option GuildMember)) * option error) :=
  match pending with
  | [] => ([], (Some members, None))
  | r :: pending' =>
      let rows := {| rows_pending := pending'; rows_current := Some r |} in
      let '(tr, (member, err)) :=
        buildGuildMemberObjectFromDBResult scan_row rows None in
      match err with
      | Some err => (tr, (None, Some err))
      | None =>
          let '(tr', res) :=
            GetGuildMembers_rows pending' (members ++ [member]) in
          (tr ++ tr', res)
      end
  end.

(** The result pair (members, error): [None] is the nil slice, [Some []]
    the empty slice. *)
Definition GetGuildMembers (guildID : Z) (applicants : bool)
  : list Event * (option (list (option GuildMember)) * option error) :=
  match Queryx guildMembersSQL [guildID; Z.b2z applicants] with
  | inl err =>
      ([LogError "failed to retrieve membership data for guild"
          [FieldError err; FieldUint "guildID" guildID]],
       (None, Some err))
  | inr result => GetGuildMembers_rows result []
  end.

Definition Save (gm : GuildMember) : list Event * option error :=
  let err :=
    Exec
      "UPDATE guild_characters SET avoid_leadership=$1, order_index=$2 WHERE character_id=$3"
      [Z.b2z (AvoidLeadership gm); OrderIndex gm; gm_CharID gm] in
  match err with
  | Some err =>
      ([LogError "failed to update guild member data"
          [FieldError err; FieldUint "charID" (gm_CharID gm);
           FieldUint "guildID" (GuildID gm)]],
       Some err)
  | None => ([], None)
  end.

End FurtherGuildData.

(** ** Further concrete inputs *)

Module Scenarios.



(** A chat packet encoder for the examples: type, flags, then the sender
    and the text, each closed by a zero byte. *)
Definition buildChat (chat : MsgBinChat) (bf : Examples.Frame)
  : Examples.Frame :=
  let bytes (text : string) : list Z :=
    ((fun c => Z.of_nat (Ascii.nat_of_ascii c))
       <$> String.list_ascii_of_string text) ++ [0] in
  (bf.1,
   bf.2 ++ [chat_Type chat; Flags chat] ++ bytes (SenderName chat)
        ++ bytes (Message chat)).

(** The started server, and the steps of a shutdown after which the
    manager has returned. *)
Definition started : Server Examples.Ctx := Start Examples.server0.

Definition returnedSteps : list Step :=
  Examples.shutdownSteps ++ [StepManagerNewConn].

(** A database of guild members: guild 1 has the rows 8 and 9, guild 2
    the rows 8, 0 and 9, of which row 0 does not decode. *)
Definition Queryx (query : string) (args : list Z) : error + list Z :=
  match args with
  | [1; 0] => inr [8; 9]
  | [2; 0] => inr [8; 0; 9]
  | _ => inr []
  end.

Definition scan_row (row : Z) : error + GuildMember :=
  if row =? 0 then inl "converting NULL to uint32 is unsupported"
  else Examples.scan_row row.

End Scenarios.

(** ** Theorems *)

(** *** Raviente multiplier *)

Section RaviMultiplier.

Context {ClientContext : Type}.
Context (getRaviSemaphore : Server ClientContext -> option Semaphore).

Lemma int_div_positive (a b : Z) :
  0 <= a -> 1 <= b -> Go.int_div a b = Go.Ok (a / b).
Proof.
  intros Ha Hb. unfold Go.int_div.
  destruct (Z.eqb_spec b 0) as [->|_]; [lia|].
  by rewrite Z.quot_div_nonneg by lia.
Qed.

Lemma ravi_threshold_cases (r : Raviente) :
  (8 < maxPlayers (register r) /\ ravi_threshold r = 24) \/
  (maxPlayers (register r) <= 8 /\ ravi_threshold r = 4).
Proof.
  unfold ravi_threshold.
  destruct (Z.ltb_spec 8 (maxPlayers (register r))); [left|right]; lia.
Qed.

Lemma occupancy_nonneg (sem : Semaphore) : 0 <= occupancy sem.
Proof. unfold occupancy. lia. Qed.

Lemma GetRaviMultiplier_value (r : Raviente) (s : Server ClientContext) :
  (forall sem, getRaviSemaphore s = Some sem -> 1 <= occupancy sem) ->
  GetRaviMultiplier getRaviSemaphore r s
    = Go.Ok (multiplier_of_spec r (getRaviSemaphore s)).
Proof.
  intros Hocc. unfold GetRaviMultiplier, multiplier_of_spec.
  destruct (getRaviSemaphore s) as [sem|] eqn:Hsem; [|reflexivity].
  specialize (Hocc sem eq_refl).
  fold (ravi_threshold r). fold (occupancy sem).
  destruct (ravi_threshold r <? occupancy sem); [reflexivity|].
  apply int_div_positive; [|done].
  destruct (ravi_threshold_cases r) as [[_ ->]|[_ ->]]; lia.
Qed.

(** C1 (amended): when the raviente semaphore, if any, has at least one
    joined session, [GetRaviMultiplier] returns 0 without a semaphore;
    otherwise the threshold is 24 when maxPlayers > 8 and 4 when not, the
    result is 1 when the occupancy strictly exceeds the threshold and the
    floor of threshold divided by occupancy when it does not. *)
Theorem GetRaviMultiplier_spec (r : Raviente) (s : Server ClientContext) :
  (forall sem, getRaviSemaphore s = Some sem -> 1 <= occupancy sem) ->
  (getRaviSemaphore s = None ->
     GetRaviMultiplier getRaviSemaphore r s = Go.Ok 0)
  /\ (forall sem, getRaviSemaphore s = Some sem ->
        (ravi_threshold r < occupancy sem ->
           GetRaviMultiplier getRaviSemaphore r s = Go.Ok 1)
        /\ (occupancy sem <= ravi_threshold r ->
             GetRaviMultiplier getRaviSemaphore r s
               = Go.Ok (ravi_threshold r / occupancy sem)))
  /\ (8 < maxPlayers (register r) -> ravi_threshold r = 24)
  /\ (maxPlayers (register r) <= 8 -> ravi_threshold r = 4).
Proof.
  intros Hocc.
  pose proof (GetRaviMultiplier_value r s Hocc) as Hval.
  unfold multiplier_of_spec in Hval.
  split; [|split; [|split]].
  - intros Hnone. by rewrite Hnone in Hval.
  - intros sem Hsem. rewrite Hsem in Hval. split; intros Hcmp.
    + by rewrite (proj2 (Z.ltb_lt _ _) Hcmp) in Hval.
    + by rewrite (proj2 (Z.ltb_ge _ _) Hcmp) in Hval.
  - intros Hbig. destruct (ravi_threshold_cases r) as [[_ ?]|[? _]]; [done|lia].
  - intros Hsmall. destruct (ravi_threshold_cases r) as [[? _]|[_ ?]]; [lia|done].
Qed.

(** C9: the division in [GetRaviMultiplier] is unguarded.  The call yields
    a value exactly when the raviente semaphore is absent or has at least
    one joined session, and panics on the zero divisor exactly when the
    semaphore exists with no joined session. *)
Theorem GetRaviMultiplier_zero_divisor (r : Raviente) (s : Server ClientContext) :
  ((exists v, GetRaviMultiplier getRaviSemaphore r s = Go.Ok v) <->
   (forall sem, getRaviSemaphore s = Some sem -> 1 <= occupancy sem))
  /\
  (GetRaviMultiplier getRaviSemaphore r s = Go.Panic "integer divide by zero" <->
   (exists sem, getRaviSemaphore s = Some sem /\ occupancy sem = 0)).
Proof.
  assert (Hzero : forall sem, getRaviSemaphore s = Some sem ->
            occupancy sem = 0 ->
            GetRaviMultiplier getRaviSemaphore r s
              = Go.Panic "integer divide by zero").
  { intros sem Hsem H0. unfold GetRaviMultiplier. rewrite Hsem.
    fold (occupancy sem). rewrite H0.
    by destruct (8 <? maxPlayers (register r)). }
  split; split.
  - intros [v Hv] sem Hsem.
    destruct (Z.eq_dec (occupancy sem) 0) as [H0|Hne].
    + rewrite (Hzero sem Hsem H0) in Hv. discriminate.
    + pose proof (occupancy_nonneg sem). lia.
  - intros Hocc. eexists.
    apply (GetRaviMultiplier_value r s Hocc).
  - intros Hp.
    destruct (getRaviSemaphore s) as [sem|] eqn:Hsem.
    + exists sem. split; [done|].
      destruct (Z.eq_dec (occupancy sem) 0) as [H0|Hne]; [done|].
      exfalso. rewrite GetRaviMultiplier_value in Hp; [discriminate|].
      intros sem' Hsem'. rewrite Hsem in Hsem'. injection Hsem' as <-.
      pose proof (occupancy_nonneg sem). lia.
    + unfold GetRaviMultiplier in Hp. rewrite Hsem in Hp. discriminate.
  - intros (sem & Hsem & H0). by apply (Hzero sem).
Qed.

End RaviMultiplier.

(** *** Semaphore-id allocator *)

Section SemaphoreAllocator.

Context {ClientContext : Type}.
Implicit Types (s : Server ClientContext) (sems : gmap string Semaphore).

Lemma uint32_mod_value : Go.uint32_mod = 4294967296.
Proof. reflexivity. Qed.

Lemma collision_flag_fold {A : Type} (p : A -> bool) (l : list A) (b : bool) :
  fold_left (fun exists_ x => if p x then true else exists_) l b
    = b || existsb p l.
Proof.
  revert b. induction l as [|x l IH]; intros b; simpl.
  - by rewrite orb_false_r.
  - rewrite IH. destruct (p x), b; reflexivity.
Qed.

Lemma semaphore_id_exists_live sems (idx : Z) :
  semaphore_id_exists sems idx = true <-> live_id sems idx.
Proof.
  unfold semaphore_id_exists, range, live_id.
  rewrite (collision_flag_fold (fun kv => sem_id kv.2 =? idx)). simpl.
  rewrite existsb_exists. split.
  - intros ([k sem] & Hin & Heq). exists k, sem. split.
    + apply elem_of_map_to_list. by apply list_elem_of_In.
    + simpl in Heq. lia.
  - intros (k & sem & Hk & Heq). exists (k, sem). split.
    + apply list_elem_of_In. by apply elem_of_map_to_list.
    + simpl. lia.
Qed.

Lemma semaphore_id_exists_free sems (idx : Z) :
  semaphore_id_exists sems idx = false <-> ~ live_id sems idx.
Proof.
  rewrite <- semaphore_id_exists_live.
  destruct (semaphore_id_exists sems idx); split; congruence.
Qed.

Lemma NextSemaphoreID_pass_eq s :
  NextSemaphoreID_pass s
    = (set_semaphoreIndex (next_cursor (semaphoreIndex s)) s,
       semaphore_id_exists (semaphore s) (next_cursor (semaphoreIndex s))).
Proof.
  unfold NextSemaphoreID_pass, next_cursor. simpl.
  destruct (Go.uint32 (semaphoreIndex s + 1) =? 0); reflexivity.
Qed.

Lemma next_cursor_cases (c : Z) :
  allocatable_id c ->
  (c < Go.uint32_max /\ next_cursor c = c + 1) \/
  (c = Go.uint32_max /\ next_cursor c = first_unreserved_id).
Proof.
  unfold allocatable_id, next_cursor, Go.uint32, Go.uint32_max,
    first_unreserved_id.
  rewrite uint32_mod_value. intros Hc.
  destruct (Z.eq_dec c 4294967295) as [->|Hne].
  - right. split; [lia|]. reflexivity.
  - left. split; [lia|]. rewrite Z.mod_small by lia.
    destruct (Z.eqb_spec (c + 1) 0); lia.
Qed.

Lemma next_cursor_allocatable (c : Z) :
  allocatable_id c -> allocatable_id (next_cursor c).
Proof.
  intros Hc. destruct (next_cursor_cases c Hc) as [[Hlt ->]|[_ ->]];
    revert Hc; try revert Hlt;
    unfold allocatable_id, Go.uint32_max, first_unreserved_id;
    rewrite uint32_mod_value; lia.
Qed.

Lemma cursor_distance_pos (c i : Z) :
  allocatable_id c -> allocatable_id i -> 1 <= cursor_distance c i.
Proof.
  unfold allocatable_id, cursor_distance, first_unreserved_id.
  rewrite uint32_mod_value. intros Hc Hi.
  destruct (Z.ltb_spec c i); lia.
Qed.

Lemma cursor_distance_next (c : Z) :
  allocatable_id c -> cursor_distance c (next_cursor c) = 1.
Proof.
  intros Hc. destruct (next_cursor_cases c Hc) as [[Hlt ->]|[-> ->]];
    revert Hc; try revert Hlt;
    unfold allocatable_id, cursor_distance, Go.uint32_max,
      first_unreserved_id;
    rewrite uint32_mod_value; intros.
  - destruct (Z.ltb_spec c (c + 1)); lia.
  - reflexivity.
Qed.

Lemma cursor_distance_step (c i : Z) :
  allocatable_id c -> allocatable_id i -> next_cursor c <> i ->
  cursor_distance c i = cursor_distance (next_cursor c) i + 1.
Proof.
  intros Hc Hi. destruct (next_cursor_cases c Hc) as [[Hlt ->]|[-> ->]];
    revert Hc Hi; try revert Hlt;
    unfold allocatable_id, cursor_distance, Go.uint32_max,
      first_unreserved_id;
    rewrite uint32_mod_value; intros.
  - destruct (Z.ltb_spec c i), (Z.ltb_spec (c + 1) i); lia.
  - destruct (Z.ltb_spec (4294967296 - 1) i), (Z.ltb_spec 7 i); lia.
Qed.

Lemma NextSemaphoreID_unfold (n : nat) s :
  NextSemaphoreID (S n) s
    = if semaphore_id_exists (semaphore s) (next_cursor (semaphoreIndex s))
      then NextSemaphoreID n
             (set_semaphoreIndex (next_cursor (semaphoreIndex s)) s)
      else Some (next_cursor (semaphoreIndex s),
                 set_semaphoreIndex (next_cursor (semaphoreIndex s)) s).
Proof.
  change (NextSemaphoreID (S n) s)
    with (let '(s', exists_) := NextSemaphoreID_pass s in
          if exists_ then NextSemaphoreID n s'
          else Some (semaphoreIndex s', s')).
  rewrite NextSemaphoreID_pass_eq. reflexivity.
Qed.

(** More fuel never changes a result. *)
Lemma NextSemaphoreID_fuel_mono (n m : nat) s (r : Z * Server ClientContext) :
  NextSemaphoreID n s = Some r -> (n <= m)%nat ->
  NextSemaphoreID m s = Some r.
Proof.
  revert m s. induction n as [|n IH]; intros m s Hn Hle; [discriminate|].
  destruct m as [|m]; [lia|]. rewrite NextSemaphoreID_unfold in *.
  destruct (semaphore_id_exists _ _); [|exact Hn].
  apply IH; [exact Hn|lia].
Qed.

(** The result does not depend on the bound. *)
Lemma NextSemaphoreID_fuel_irrelevant (n m : nat) s
    (r r' : Z * Server ClientContext) :
  NextSemaphoreID n s = Some r -> NextSemaphoreID m s = Some r' -> r = r'.
Proof.
  intros Hn Hm.
  pose proof (NextSemaphoreID_fuel_mono n (n `max` m)%nat s r Hn
                ltac:(lia)) as H1.
  pose proof (NextSemaphoreID_fuel_mono m (n `max` m)%nat s r' Hm
                ltac:(lia)) as H2.
  congruence.
Qed.

(** The loop exits within [cursor_distance] passes of any free id, at the
    free id nearest to the cursor. *)
Lemma NextSemaphoreID_finds (n : nat) s (f : Z) :
  allocatable_id (semaphoreIndex s) -> allocatable_id f ->
  ~ live_id (semaphore s) f ->
  cursor_distance (semaphoreIndex s) f <= Z.of_nat n ->
  exists id,
    NextSemaphoreID n s = Some (id, set_semaphoreIndex id s)
    /\ allocatable_id id
    /\ ~ live_id (semaphore s) id
    /\ cursor_distance (semaphoreIndex s) id
         <= cursor_distance (semaphoreIndex s) f.
Proof.
  revert s. induction n as [|n IH]; intros s Hc Hf Hfree Hd.
  { pose proof (cursor_distance_pos _ _ Hc Hf). lia. }
  rewrite NextSemaphoreID_unfold.
  set (c := semaphoreIndex s) in *.
  pose proof (next_cursor_allocatable c Hc) as Hc'.
  destruct (semaphore_id_exists (semaphore s) (next_cursor c)) eqn:Hex.
  - apply semaphore_id_exists_live in Hex.
    assert (next_cursor c <> f) as Hne by (intros <-; done).
    pose proof (cursor_distance_step c f Hc Hf Hne) as Hstep.
    destruct (IH (set_semaphoreIndex (next_cursor c) s)) as (id & Hrun & Hid & Hidfree & Hmin);
      [done|done|done|simpl; lia|].
    simpl in *. exists id. split; [exact Hrun|]. split; [done|]. split; [done|].
    assert (next_cursor c <> id) as Hne' by (intros <-; done).
    rewrite (cursor_distance_step c id Hc Hid Hne'). lia.
  - apply semaphore_id_exists_free in Hex.
    exists (next_cursor c). split; [reflexivity|]. split; [done|]. split; [done|].
    rewrite (cursor_distance_next c Hc).
    apply (cursor_distance_pos c f Hc Hf).
Qed.

(** Without a free allocatable id the loop never exits. *)
Lemma NextSemaphoreID_diverges (n : nat) s :
  allocatable_id (semaphoreIndex s) ->
  (forall i, allocatable_id i -> live_id (semaphore s) i) ->
  NextSemaphoreID n s = None.
Proof.
  revert s. induction n as [|n IH]; intros s Hc Hall; [reflexivity|].
  rewrite NextSemaphoreID_unfold.
  pose proof (next_cursor_allocatable _ Hc) as Hc'.
  pose proof (proj2 (semaphore_id_exists_live _ _) (Hall _ Hc')) as ->.
  by apply IH.
Qed.

(** The cursor stays allocatable: [NewServer] starts it at 7 and an
    allocation leaves it at the id returned. *)
Lemma NewServer_cursor_allocatable getLangStrings (config : Config) :
  allocatable_id
    (semaphoreIndex (NewServer (ClientContext:=ClientContext) getLangStrings config)).
Proof. simpl. unfold allocatable_id. rewrite uint32_mod_value. done. Qed.

Lemma NextSemaphoreID_cursor_allocatable (n : nat) s (id : Z) s' :
  allocatable_id (semaphoreIndex s) ->
  NextSemaphoreID n s = Some (id, s') ->
  semaphoreIndex s' = id /\ allocatable_id id /\ semaphore s' = semaphore s.
Proof.
  revert s. induction n as [|n IH]; intros s Hc Hrun; [discriminate|].
  rewrite NextSemaphoreID_unfold in Hrun.
  pose proof (next_cursor_allocatable _ Hc) as Hc'.
  destruct (semaphore_id_exists _ _).
  - destruct (IH (set_semaphoreIndex (next_cursor (semaphoreIndex s)) s)
                Hc' Hrun) as (? & ? & ?). done.
  - injection Hrun as <- <-. done.
Qed.

(** C2: in a state whose cursor is allocatable (as it is from [NewServer]
    on) and in which some allocatable id is free, [NextSemaphoreID] returns:
    the loop exits for every large enough bound on its passes, always with
    the same id; that id is held by no live semaphore and is not in the
    reserved range; and when the cursor stands at the top of the [uint32]
    range the pass moves it to 7, the first id outside the reserved range,
    not to 0, and the search goes upward from there. *)
Theorem NextSemaphoreID_spec s :
  allocatable_id (semaphoreIndex s) ->
  (exists i, allocatable_id i /\ ~ live_id (semaphore s) i) ->
  exists (fuel : nat) (id : Z),
    (forall n, (fuel <= n)%nat ->
       NextSemaphoreID n s = Some (id, set_semaphoreIndex id s))
    /\ (forall n r, NextSemaphoreID n s = Some r ->
          r = (id, set_semaphoreIndex id s))
    /\ ~ live_id (semaphore s) id
    /\ ~ reserved_id id
    /\ 0 <= id < Go.uint32_mod
    /\ (semaphoreIndex s = Go.uint32_max ->
          semaphoreIndex (NextSemaphoreID_pass s).1 = first_unreserved_id
          /\ semaphoreIndex (NextSemaphoreID_pass s).1 <> 0
          /\ (forall j, allocatable_id j -> ~ live_id (semaphore s) j ->
                id <= j)).
Proof.
  intros Hc (f & Hf & Hfree).
  set (fuel := Z.to_nat (cursor_distance (semaphoreIndex s) f)).
  destruct (NextSemaphoreID_finds fuel s f Hc Hf Hfree)
    as (id & Hrun & Hid & Hidfree & _).
  { subst fuel. pose proof (cursor_distance_pos _ _ Hc Hf). lia. }
  exists fuel, id. split; [|split; [|split; [|split; [|split]]]].
  - intros n Hn. by apply (NextSemaphoreID_fuel_mono fuel).
  - intros n r Hr. apply (NextSemaphoreID_fuel_irrelevant _ _ _ _ _ Hr Hrun).
  - done.
  - unfold reserved_id. unfold allocatable_id in Hid. lia.
  - unfold allocatable_id, first_unreserved_id in Hid. lia.
  - intros Htop. rewrite NextSemaphoreID_pass_eq. simpl.
    destruct (next_cursor_cases _ Hc) as [[Hlt _]|[_ Hnext]]; [lia|].
    rewrite Hnext. split; [done|]. split; [done|].
    intros j Hj Hjfree.
    destruct (NextSemaphoreID_finds
                (Z.to_nat (cursor_distance (semaphoreIndex s) j)) s j Hc Hj
                Hjfree) as (id' & Hrun' & Hid' & _ & Hmin).
    { pose proof (cursor_distance_pos _ _ Hc Hj). lia. }
    assert (id' = id) as ->.
    { pose proof (NextSemaphoreID_fuel_irrelevant _ _ _ _ _ Hrun' Hrun) as Heq.
      by injection Heq. }
    revert Hmin Hid Hj. rewrite Htop.
    unfold cursor_distance, allocatable_id, Go.uint32_max,
      first_unreserved_id.
    rewrite uint32_mod_value. intros.
    destruct (Z.ltb_spec (4294967296 - 1) id),
      (Z.ltb_spec (4294967296 - 1) j); lia.
Qed.

Lemma NextSemaphoreID_no_semaphores (n : nat) s :
  semaphore s = ∅ ->
  NextSemaphoreID (S n) s
    = Some (next_cursor (semaphoreIndex s),
            set_semaphoreIndex (next_cursor (semaphoreIndex s)) s).
Proof.
  intros Hempty. rewrite NextSemaphoreID_unfold.
  destruct (semaphore_id_exists _ _) eqn:Hex; [|reflexivity].
  apply semaphore_id_exists_live in Hex.
  destruct Hex as (k & sem & Hk & _). rewrite Hempty in Hk.
  by rewrite lookup_empty in Hk.
Qed.

(** C7: from the freshly constructed server (cursor 7, no live
    semaphores) three sequential calls of [NextSemaphoreID] return 8, 9
    and 10, each call exiting on its first pass; the ids are pairwise
    distinct and none is held by a live semaphore. *)
Theorem NextSemaphoreID_first_three getLangStrings (config : Config)
    (n1 n2 n3 : nat) :
  let s0 : Server ClientContext := NewServer getLangStrings config in
  semaphoreIndex s0 = 7 /\ semaphore s0 = ∅ /\
  exists s1 s2 s3,
    NextSemaphoreID (S n1) s0 = Some (8, s1)
    /\ NextSemaphoreID (S n2) s1 = Some (9, s2)
    /\ NextSemaphoreID (S n3) s2 = Some (10, s3)
    /\ ~ live_id (semaphore s0) 8
    /\ ~ live_id (semaphore s1) 9
    /\ ~ live_id (semaphore s2) 10.
Proof.
  intros s0. split; [reflexivity|]. split; [reflexivity|].
  assert (Hnone : forall i, ~ live_id (∅ : gmap string Semaphore) i).
  { intros i (k & sem & Hk & _). by rewrite lookup_empty in Hk. }
  eexists _, _, _.
  split; [by rewrite NextSemaphoreID_no_semaphores|].
  split; [by rewrite NextSemaphoreID_no_semaphores|].
  split; [by rewrite NextSemaphoreID_no_semaphores|].
  split; [apply Hnone|]. split; apply Hnone.
Qed.

(** Allocation with registration: when the ids handed out are taken into
    use between the calls (the live semaphores hold ids already
    allocated), the three ids are still 8, 9 and 10. *)
Lemma NextSemaphoreID_first_three_registered getLangStrings
    (config : Config) (sems1 sems2 : gmap string Semaphore) :
  (forall i, live_id sems1 i -> i = 8) ->
  (forall i, live_id sems2 i -> i = 8 \/ i = 9) ->
  let s0 : Server ClientContext := NewServer getLangStrings config in
  exists s1 s2 s3,
    NextSemaphoreID 1 s0 = Some (8, s1)
    /\ NextSemaphoreID 1 (set_semaphore sems1 s1) = Some (9, s2)
    /\ NextSemaphoreID 1 (set_semaphore sems2 s2) = Some (10, s3).
Proof.
  intros H1 H2 s0.
  eexists _, _, _.
  split; [by rewrite NextSemaphoreID_no_semaphores|].
  split.
  - rewrite NextSemaphoreID_unfold. simpl.
    destruct (semaphore_id_exists sems1 _) eqn:Hex; [|reflexivity].
    apply semaphore_id_exists_live, H1 in Hex. discriminate.
  - rewrite NextSemaphoreID_unfold. simpl.
    destruct (semaphore_id_exists sems2 _) eqn:Hex; [|reflexivity].
    apply semaphore_id_exists_live, H2 in Hex. by destruct Hex.
Qed.

End SemaphoreAllocator.

(** *** Server construction *)

Section Construction.

Context {ClientContext : Type}.
Context (getLangStrings : Server ClientContext -> gmap string string).

(** The keys of the stages [NewServer] seeds. *)
Lemma NewServer_stage_keys (config : Config) :
  dom (stages (NewServer getLangStrings config))
    = list_to_set
        ["sl1Ns200p0a0u0"; "sl1Ns211p0a0u0"; "sl1Ns260p0a0u0";
         "sl1Ns262p0a0u0"; "sl1Ns263p0a0u0"; "sl2Ns379p0a0u0";
         "sl1Ns462p0a0u0"].
Proof. vm_compute. reflexivity. Qed.

(** C8: constructing a channel server seeds exactly 7 stages, under 7
    distinct keys, each holding the freshly made stage of that name. *)
Theorem NewServer_seeds_seven_stages (config : Config) :
  let keys :=
    ["sl1Ns200p0a0u0"; "sl1Ns211p0a0u0"; "sl1Ns260p0a0u0";
     "sl1Ns262p0a0u0"; "sl1Ns263p0a0u0"; "sl2Ns379p0a0u0";
     "sl1Ns462p0a0u0"] in
  size (stages (NewServer getLangStrings config)) = 7%nat
  /\ NoDup keys
  /\ (forall k, k ∈ keys <->
        is_Some (stages (NewServer getLangStrings config) !! k))
  /\ (forall k, k ∈ keys ->
        stages (NewServer getLangStrings config) !! k = Some (NewStage k)).
Proof.
  intros keys.
  assert (Hdom : dom (stages (NewServer getLangStrings config))
                   = list_to_set keys) by apply NewServer_stage_keys.
  assert (Hnodup : NoDup keys).
  { subst keys. apply (bool_decide_unpack _). vm_compute. exact I. }
  split; [|split; [done|split]].
  - rewrite <- size_dom, Hdom, size_list_to_set; done.
  - intros k. rewrite <- elem_of_dom, Hdom. set_solver.
  - intros k Hk. subst keys.
    repeat (apply elem_of_cons in Hk as [->|Hk]; [vm_compute; reflexivity|]).
    by apply elem_of_nil in Hk.
Qed.

End Construction.

(** *** Object lookup *)

Section ObjectLookup.

Context {ClientContext : Type}.
Implicit Types (s : Server ClientContext) (st : Stage).

Lemma scan_stage_objects_spec st (objIds : list Z) (charID : Z) :
  (forall i, i ∈ objIds -> is_Some (objects st !! i)) ->
  (scan_stage_objects st objIds charID = Go.Ok None
   /\ forall i o, i ∈ objIds -> objects st !! i = Some o ->
        ownerCharID o <> charID)
  \/ (exists i o, i ∈ objIds /\ objects st !! i = Some o
        /\ ownerCharID o = charID
        /\ scan_stage_objects st objIds charID = Go.Ok (Some o)).
Proof.
  induction objIds as [|i objIds IH]; intros Hkeys; simpl.
  - left. split; [done|]. intros i o Hi. by apply elem_of_nil in Hi.
  - destruct (Hkeys i) as [o Ho]; [by left|]. rewrite Ho.
    destruct (Z.eqb_spec (ownerCharID o) charID) as [Heq|Hne].
    + right. exists i, o. split; [by left|]. done.
    + destruct IH as [[Hnone Hall]|(j & o' & Hj & Ho' & Hown & Hres)].
      * intros j Hj. apply Hkeys. by right.
      * left. split; [done|]. intros j o' Hj Ho'.
        apply elem_of_cons in Hj as [->|Hj]; [|by eapply Hall].
        rewrite Ho in Ho'. by injection Ho' as <-.
      * right. exists j, o'. split; [by right|]. done.
Qed.

Lemma FindObjectByChar_in_spec (visit : list (string * Stage))
    (objOrder : string -> list Z) (charID : Z) :
  (forall k st i, (k, st) ∈ visit -> i ∈ objOrder k ->
     is_Some (objects st !! i)) ->
  (FindObjectByChar_in visit objOrder charID = Go.Ok None
   /\ forall k st i o, (k, st) ∈ visit -> i ∈ objOrder k ->
        objects st !! i = Some o -> ownerCharID o <> charID)
  \/ (exists k st i o, (k, st) ∈ visit /\ i ∈ objOrder k
        /\ objects st !! i = Some o /\ ownerCharID o = charID
        /\ FindObjectByChar_in visit objOrder charID = Go.Ok (Some o)).
Proof.
  induction visit as [|[k st] visit IH]; intros Hkeys; simpl.
  - left. split; [done|]. intros k st i o Hin. by apply elem_of_nil in Hin.
  - destruct (scan_stage_objects_spec st (objOrder k) charID)
      as [[-> Hall]|(i & o & Hi & Ho & Hown & ->)].
    + intros i Hi. apply (Hkeys k st i); [by left|done].
    + destruct IH as [[Hnone Hrest]|(k' & st' & i & o & Hin & Hi & Ho & Hown & Hres)].
      * intros k' st' i Hin. apply Hkeys. by right.
      * left. split; [done|]. intros k' st' i o Hin Hi Ho.
        apply elem_of_cons in Hin as [[= -> ->]|Hin];
          [by eapply Hall|by eapply Hrest].
      * right. exists k', st', i, o. split; [by right|]. done.
    + right. exists k, st, i, o. split; [by left|]. done.
Qed.

Lemma stage_visit_entry s visit objOrder (k : string) st :
  stage_visit s visit objOrder ->
  (k, st) ∈ visit <-> stages s !! k = Some st.
Proof. intros [Hperm _]. rewrite Hperm. apply elem_of_map_to_list. Qed.

Lemma stage_visit_object s visit objOrder (k : string) st (i : Z) :
  stage_visit s visit objOrder -> stages s !! k = Some st ->
  i ∈ objOrder k <-> is_Some (objects st !! i).
Proof.
  intros [_ Hobj] Hk. rewrite (Hobj k st Hk).
  rewrite list_elem_of_fmap. split.
  - intros ([i' o] & -> & Hin). apply elem_of_map_to_list in Hin. by exists o.
  - intros [o Ho]. exists (i, o). split; [done|].
    by apply elem_of_map_to_list.
Qed.

(** C6: whatever the order in which the stages and the objects of each
    stage are visited, [FindObjectByChar] returns nil for a character that
    owns no object in any stage, and returns the character's object when
    the character owns exactly one object across all stages. *)
Theorem FindObjectByChar_spec s (charID : Z) (visit : list (string * Stage))
    (objOrder : string -> list Z) :
  stage_visit s visit objOrder ->
  ((forall k i o, ~ owns_object s charID k i o) ->
     FindObjectByChar_in visit objOrder charID = Go.Ok None)
  /\ (forall k i o,
        owns_object s charID k i o ->
        (forall k' i' o', owns_object s charID k' i' o' -> k' = k /\ i' = i) ->
        FindObjectByChar_in visit objOrder charID = Go.Ok (Some o)).
Proof.
  intros Hvisit.
  destruct (FindObjectByChar_in_spec visit objOrder charID)
    as [[Hres Hall]|(k0 & st0 & i0 & o0 & Hin & Hi & Ho & Hown & Hres)].
  { intros k st i Hin Hi.
    apply (stage_visit_entry s visit objOrder) in Hin; [|done].
    by apply (stage_visit_object s visit objOrder k st i). }
  - split; [done|].
    intros k i o (st & Hk & Hi & Hown) _. exfalso.
    apply (Hall k st i o); [| |done|done].
    + by apply (stage_visit_entry s visit objOrder).
    + apply (stage_visit_object s visit objOrder k st i); [done|done|].
      by exists o.
  - apply (stage_visit_entry s visit objOrder) in Hin; [|done].
    assert (owns_object s charID k0 i0 o0) as Howns by (by exists st0).
    split.
    + intros Hnone. by destruct (Hnone k0 i0 o0).
    + intros k i o (st & Hk & Hio & Hown') Huniq.
      destruct (Huniq k0 i0 o0 Howns) as [-> ->].
      rewrite Hres. rewrite Hk in Hin. injection Hin as ->.
      rewrite Hio in Ho. by injection Ho as ->.
Qed.

(** The order [FindObjectByChar] fixes is one of those orders. *)
Lemma FindObjectByChar_visit s :
  stage_visit s (range (stages s))
    (fun k => from_option object_ids [] (stages s !! k)).
Proof.
  split; [done|]. intros k st Hk. by rewrite Hk.
Qed.

End ObjectLookup.

(** *** Broadcast engine *)

Section Broadcast.

Context {ClientContext ByteFrame : Type} `{!ByteFrameOps ByteFrame}.
Context {P : Type}
  `{!MHFPacket (ClientContext:=ClientContext) (ByteFrame:=ByteFrame) P}.
Implicit Types (s : Server ClientContext) (session : Session ClientContext)
  (visit : list (Conn * Session ClientContext)) (pkt : P)
  (ignoredSession : option SessionRef) (tr : list Event).

Lemma enqueues_to_app (ref : SessionRef) tr tr' :
  enqueues_to ref (tr ++ tr') = enqueues_to ref tr ++ enqueues_to ref tr'.
Proof. unfold enqueues_to. by rewrite !flat_map_concat_map, fmap_app, concat_app. Qed.

Lemma enqueues_to_session pkt ignoredSession session (ref : SessionRef) :
  enqueues_to ref (BroadcastMHF_session pkt ignoredSession session)
    = if decide (sess_ref session = ref
                 /\ Some (sess_ref session) <> ignoredSession)
      then [session_encoding pkt session] else [].
Proof.
  unfold BroadcastMHF_session.
  destruct (decide (Some (sess_ref session) = ignoredSession)) as [Hign|Hign];
    simpl.
  - rewrite decide_False; [done|]. by intros [_ ?].
  - destruct (decide (sess_ref session = ref)) as [Href|Href].
    + by rewrite decide_True.
    + rewrite decide_False; [done|]. by intros [? _].
Qed.

Lemma BroadcastMHF_in_cons (kv : Conn * Session ClientContext) visit pkt
    ignoredSession :
  BroadcastMHF_in (kv :: visit) pkt ignoredSession
    = BroadcastMHF_session pkt ignoredSession kv.2
        ++ BroadcastMHF_in visit pkt ignoredSession.
Proof. reflexivity. Qed.

(** A session that is not visited, or is the ignored one, gets nothing. *)
Lemma BroadcastMHF_in_skips visit pkt ignoredSession (ref : SessionRef) :
  (forall kv, kv ∈ visit -> sess_ref kv.2 = ref ->
     Some ref = ignoredSession) ->
  enqueues_to ref (BroadcastMHF_in visit pkt ignoredSession) = [].
Proof.
  induction visit as [|kv visit IH]; intros Hskip; [done|].
  rewrite BroadcastMHF_in_cons, enqueues_to_app, enqueues_to_session.
  rewrite IH by (intros kv' Hin; apply Hskip; by right).
  rewrite decide_False; [done|].
  intros [Href Hign]. apply Hign. rewrite Href.
  apply (Hskip kv); [by left|done].
Qed.

(** A visited session other than the ignored one gets its encoding once,
    provided no other visited entry holds the same session. *)
Lemma BroadcastMHF_in_once visit pkt ignoredSession
    (kv : Conn * Session ClientContext) :
  NoDup ((fun kv => sess_ref kv.2) <$> visit) ->
  kv ∈ visit ->
  Some (sess_ref kv.2) <> ignoredSession ->
  enqueues_to (sess_ref kv.2) (BroadcastMHF_in visit pkt ignoredSession)
    = [session_encoding pkt kv.2].
Proof.
  induction visit as [|kv' visit IH]; intros Hnodup Hin Hign.
  { by apply elem_of_nil in Hin. }
  rewrite fmap_cons in Hnodup. apply NoDup_cons in Hnodup as [Hfresh Hnodup].
  rewrite BroadcastMHF_in_cons, enqueues_to_app, enqueues_to_session.
  apply elem_of_cons in Hin as [<-|Hin].
  - rewrite decide_True by done.
    rewrite BroadcastMHF_in_skips; [done|].
    intros kv' Hin' Href. exfalso. apply Hfresh.
    apply list_elem_of_fmap. by exists kv'.
  - rewrite decide_False.
    + by rewrite IH.
    + intros [Href _]. apply Hfresh.
      apply list_elem_of_fmap. by exists kv.
Qed.

Lemma BroadcastMHF_in_events visit pkt ignoredSession (e : Event) :
  e ∈ BroadcastMHF_in visit pkt ignoredSession ->
  exists kv, kv ∈ visit /\ Some (sess_ref kv.2) <> ignoredSession
    /\ e = QueueSendNonBlocking (sess_ref kv.2) (session_encoding pkt kv.2).
Proof.
  induction visit as [|kv visit IH]; intros Hin.
  { by apply elem_of_nil in Hin. }
  rewrite BroadcastMHF_in_cons in Hin. apply elem_of_app in Hin as [Hin|Hin].
  - exists kv. split; [by left|].
    unfold BroadcastMHF_session in Hin.
    destruct (decide (Some (sess_ref kv.2) = ignoredSession)).
    + by apply elem_of_nil in Hin.
    + apply list_elem_of_singleton in Hin. done.
  - destruct (IH Hin) as (kv' & Hin' & Hrest). exists kv'.
    split; [by right|done].
Qed.

(** C3: one channel broadcast, in whatever order the session set is
    visited, makes for every session of the set other than the excluded
    one exactly one enqueue attempt, carrying the encoding built with that
    session's protocol context; it makes no attempt on the excluded
    session nor on any session outside the set; and its effects are these
    enqueue attempts only, so no session is enqueued to twice. *)
Theorem BroadcastMHF_once s pkt ignoredSession visit :
  visit ≡ₚ map_to_list (sessions s) ->
  sessions_distinct s ->
  let tr := BroadcastMHF_in visit pkt ignoredSession in
  (forall c session, sessions s !! c = Some session ->
     Some (sess_ref session) <> ignoredSession ->
     enqueues_to (sess_ref session) tr = [session_encoding pkt session])
  /\ (forall ref, ignoredSession = Some ref -> enqueues_to ref tr = [])
  /\ (forall ref,
        (forall c session, sessions s !! c = Some session ->
           sess_ref session <> ref) ->
        enqueues_to ref tr = [])
  /\ (forall ref, (length (enqueues_to ref tr) <= 1)%nat)
  /\ (forall e, e ∈ tr ->
        exists c session, sessions s !! c = Some session
          /\ Some (sess_ref session) <> ignoredSession
          /\ e = QueueSendNonBlocking (sess_ref session)
                   (session_encoding pkt session)).
Proof.
  intros Hperm Hdistinct tr. unfold sessions_distinct in Hdistinct.
  rewrite <- Hperm in Hdistinct.
  assert (Hentry : forall c session,
            (c, session) ∈ visit <-> sessions s !! c = Some session).
  { intros c session. rewrite Hperm. apply elem_of_map_to_list. }
  assert (Hone : forall c session, sessions s !! c = Some session ->
            Some (sess_ref session) <> ignoredSession ->
            enqueues_to (sess_ref session) tr
              = [session_encoding pkt session]).
  { intros c session Hc Hign.
    apply (BroadcastMHF_in_once visit pkt ignoredSession (c, session));
      [done|by apply Hentry|done]. }
  assert (Hnone : forall ref,
            (forall kv, kv ∈ visit -> sess_ref kv.2 = ref ->
               Some ref = ignoredSession) ->
            enqueues_to ref tr = []).
  { intros ref. apply BroadcastMHF_in_skips. }
  split; [exact Hone|]. split; [|split; [|split]].
  - intros ref ->. apply Hnone. done.
  - intros ref Hout. apply Hnone. intros [c session] Hin Href.
    apply Hentry in Hin. by destruct (Hout c session Hin).
  - intros ref.
    destruct (decide (Some ref = ignoredSession)) as [Hign|Hign];
      [rewrite Hnone; [simpl; lia|done]|].
    destruct (decide (ref ∈ (fun kv => sess_ref kv.2) <$> visit))
      as [Hin|Hout].
    + apply list_elem_of_fmap in Hin as ([c session] & Href & Hin).
      simpl in Href. subst ref.
      rewrite (Hone c session); [done|by apply Hentry|done].
    + rewrite Hnone; [simpl; lia|].
      intros kv Hin Href. exfalso. apply Hout.
      apply list_elem_of_fmap. by exists kv.
  - intros e He.
    destruct (BroadcastMHF_in_events visit pkt ignoredSession e He)
      as ([c session] & Hin & Hign & ->).
    exists c, session. split; [by apply Hentry|done].
Qed.

End Broadcast.

(** *** Raviente announcement *)

Section Announcement.

Context {ClientContext ByteFrame : Type} `{!ByteFrameOps ByteFrame}.
Context (ps_Uint16 : ByteFrame -> string -> bool -> ByteFrame).
Context `{!MHFPacket (ClientContext:=ClientContext) (ByteFrame:=ByteFrame)
            MsgSysCastedBinary}.
Context (BroadcastTypeServer BinaryMessageTypeChat : Z).
Implicit Types (σ : gmap ServerRef (Server ClientContext))
  (s : Server ClientContext).

Lemma eff_bind_ret_l {A B : Type} (a : A) (f : A -> Eff B) :
  (x ← eff_ret a; f x) = f a.
Proof.
  unfold mbind, Eff_bind, eff_bind, eff_ret. by destruct (f a).
Qed.

Lemma eff_bind_ok {A B : Type} (tr : list Event) (a : A) (f : A -> Eff B) :
  (x ← ((tr, Go.Ok a) : Eff A); f x) = (tr ++ (f a).1, (f a).2).
Proof.
  unfold mbind, Eff_bind, eff_bind. by destruct (f a).
Qed.

Lemma WorldcastMHF_channels_trace {P : Type}
    `{!MHFPacket (ClientContext:=ClientContext) (ByteFrame:=ByteFrame) P}
    σ (channels : list ServerRef) (pkt : P)
    (ignoredSession : option SessionRef) (ignoredChannel : option ServerRef) :
  (forall c, c ∈ channels -> is_Some (σ !! c)) ->
  WorldcastMHF_channels σ channels pkt ignoredSession ignoredChannel
    = (worldcast_trace σ channels pkt ignoredSession ignoredChannel,
       Go.Ok tt).
Proof.
  induction channels as [|c channels IH]; intros Hall; [reflexivity|].
  cbn [WorldcastMHF_channels worldcast_trace flat_map].
  rewrite IH by (intros c' Hc'; apply Hall; by right).
  destruct (decide (Some c = ignoredChannel)); [reflexivity|].
  destruct (Hall c) as [srv Hsrv]; [by left|].
  unfold eff_deref. rewrite Hsrv. reflexivity.
Qed.

(** C5: [BroadcastRaviente] selects the text by event-type code: for the
    codes 2, 3, 4 and 5 the dictionary entry of the matching key, nothing
    being logged; for every other code it logs an error and goes on with
    the empty text.  In every case the announcement, addressed to
    character id 0, is worldcast to the sessions of all channels but the
    sender's own, and the call completes. *)
Theorem BroadcastRaviente_spec σ (self : ServerRef) s (ip port : Z)
    (stage : list Z) (_type : Z) :
  σ !! self = Some s ->
  (forall c, c ∈ Channels s -> is_Some (σ !! c)) ->
  let run :=
    BroadcastRaviente ps_Uint16 BroadcastTypeServer BinaryMessageTypeChat
      σ self ip port stage _type in
  let announce (text : string) : list Event :=
    worldcast_trace σ (Channels s)
      (raviente_message ps_Uint16 BroadcastTypeServer BinaryMessageTypeChat
         text ip port stage)
      None (Some self) in
  (_type = 2 ->
     run = (announce (dict_get (dict s) "ravienteBerserk"), Go.Ok tt))
  /\ (_type = 3 ->
       run = (announce (dict_get (dict s) "ravienteExtreme"), Go.Ok tt))
  /\ (_type = 4 ->
       run = (announce (dict_get (dict s) "ravienteExtremeLimited"),
              Go.Ok tt))
  /\ (_type = 5 ->
       run = (announce (dict_get (dict s) "ravienteBerserkSmall"),
              Go.Ok tt))
  /\ (_type <> 2 -> _type <> 3 -> _type <> 4 -> _type <> 5 ->
       run = (LogError "Unk raviente type" [FieldUint "_type" _type]
                :: announce "",
              Go.Ok tt))
  /\ (forall text,
        CharID
          (raviente_message ps_Uint16 BroadcastTypeServer
             BinaryMessageTypeChat text ip port stage) = 0).
Proof.
  intros Hself Hall run announce.
  assert (Hcast : forall text,
            WorldcastMHF σ s
              (raviente_message ps_Uint16 BroadcastTypeServer
                 BinaryMessageTypeChat text ip port stage)
              None (Some self)
            = (announce text, Go.Ok tt)).
  { intros text. unfold WorldcastMHF.
    by rewrite WorldcastMHF_channels_trace. }
  assert (Hknown : forall key,
            (s' ← eff_deref σ self;
             text ← eff_ret (dict_get (dict s') key);
             WorldcastMHF σ s'
               (raviente_message ps_Uint16 BroadcastTypeServer
                  BinaryMessageTypeChat text ip port stage)
               None (Some self))
            = (announce (dict_get (dict s) key), Go.Ok tt)).
  { intros key. unfold eff_deref. rewrite Hself.
    rewrite !eff_bind_ret_l. apply Hcast. }
  split; [intros ->; apply Hknown|].
  split; [intros ->; apply Hknown|].
  split; [intros ->; apply Hknown|].
  split; [intros ->; apply Hknown|].
  split; [|reflexivity].
  intros H2 H3 H4 H5. subst run. unfold BroadcastRaviente, eff_deref.
  rewrite Hself, eff_bind_ret_l. cbv zeta.
  assert (Hdefault :
            match _type with
            | 2 => eff_ret (dict_get (dict s) "ravienteBerserk")
            | 3 => eff_ret (dict_get (dict s) "ravienteExtreme")
            | 4 => eff_ret (dict_get (dict s) "ravienteExtremeLimited")
            | 5 => eff_ret (dict_get (dict s) "ravienteBerserkSmall")
            | _ =>
                eff_emit
                  [LogError "Unk raviente type" [FieldUint "_type" _type]];;
                eff_ret ""
            end
            = (eff_emit
                 [LogError "Unk raviente type" [FieldUint "_type" _type]];;
               eff_ret "")).
  { destruct _type as [|p|p]; [done| |done].
    destruct p as [[[|[]|]|[|[]|]|]|[[|[]|]|[|[]|]|]|]; done. }
  rewrite Hdefault. unfold eff_emit, eff_ret.
  rewrite (eff_bind_ok _ tt). simpl fst. simpl snd.
  rewrite (eff_bind_ok _ ""). cbv beta.
  pose proof (Hcast "") as Hempty.
  unfold raviente_message, raviente_payload in Hempty.
  by rewrite Hempty.
Qed.

End Announcement.

(** *** Session manager and shutdown *)

Section SessionManager.

Context {ClientContext : Type}.
Context (getLangStrings : Server ClientContext -> gmap string string).
Context (newClientContext : ClientContext).
Implicit Types (st : System ClientContext) (s : Server ClientContext).

Lemma manager_invariant_init (config : Config) :
  manager_invariant (sys_init getLangStrings config).
Proof. repeat split; done. Qed.

Lemma manager_invariant_step st (l : Step) st' :
  manager_invariant st -> sys_step newClientContext st l = Some st' ->
  manager_invariant st'.
Proof.
  intros (Hpc & Hclosed & Hrecv & Hnil) Hstep.
  destruct st as [s acc mgr pc ref tr]. simpl in *.
  destruct l as [conn|err| | | |delConn]; simpl in Hstep.
  - destruct acc; try done. destruct (listener s) as [[|]|]; try done.
    by injection Hstep as <-.
  - destruct acc; try done. unfold acceptClients_error in Hstep.
    assert (exists acc' tr',
              st' = {| sys_server := s; sys_acceptor := acc';
                       sys_manager := mgr; sys_shutdown := pc;
                       sys_nextRef := ref; sys_trace := tr' |})
      as (acc' & tr' & ->).
    { destruct (isShuttingDown s); injection Hstep as <-; eauto. }
    by repeat split.
  - destruct pc; simpl in Hstep.
    + injection Hstep as <-. by repeat split.
    + destruct (listener s); [|done]. injection Hstep as <-.
      assert (isShuttingDown s = true) by (by apply Hpc).
      by repeat split.
    + destruct (chan_closed (acceptConns s)) eqn:Hc; [done|].
      injection Hstep as <-.
      assert (isShuttingDown s = true) by (by apply Hpc).
      by repeat split.
    + done.
  - destruct mgr; try done. unfold recv_acceptConns in Hstep.
    destruct (chan_closed (acceptConns s)) eqn:Hc.
    + injection Hstep as <-.
      assert (isShuttingDown s = true) by (by apply Hclosed).
      by repeat split.
    + destruct acc; try done. injection Hstep as <-.
      split; [done|]. split; [simpl; congruence|]. by split.
  - destruct mgr as [|newConn|]; try done.
    unfold manageSessions_newConn in Hstep.
    destruct newConn as [c|].
    + injection Hstep as <-.
      split; [done|]. split; [done|]. split; [done|]. simpl.
      by rewrite lookup_insert_ne.
    + rewrite (Hrecv eq_refl) in Hstep. injection Hstep as <-.
      by repeat split.
  - destruct mgr; try done. injection Hstep as <-.
    split; [done|]. split; [done|]. split; [done|]. simpl.
    destruct (decide (delConn = None)) as [->|Hne].
    + by rewrite lookup_delete_eq.
    + by rewrite lookup_delete_ne.
Qed.

Lemma manager_invariant_run (steps : list Step) st st' :
  manager_invariant st -> sys_run newClientContext st steps = Some st' ->
  manager_invariant st'.
Proof.
  revert st. induction steps as [|l steps IH]; intros st Hinv Hrun.
  - by injection Hrun as <-.
  - simpl in Hrun.
    destruct (sys_step newClientContext st l) as [st1|] eqn:Hstep; [|done].
    apply (IH st1); [by eapply manager_invariant_step|done].
Qed.

Lemma manager_sessions_fresh_step st (l : Step) st' :
  manager_sessions_fresh st -> sys_step newClientContext st l = Some st' ->
  manager_sessions_fresh st'.
Proof.
  intros [Hfresh Hinj] Hstep.
  destruct st as [s acc mgr pc ref tr]. simpl in *.
  destruct l as [conn|err| | | |delConn]; simpl in Hstep.
  - destruct acc; try done. destruct (listener s) as [[|]|]; try done.
    by injection Hstep as <-.
  - destruct acc; try done. unfold acceptClients_error in Hstep.
    assert (exists acc' tr',
              st' = {| sys_server := s; sys_acceptor := acc';
                       sys_manager := mgr; sys_shutdown := pc;
                       sys_nextRef := ref; sys_trace := tr' |})
      as (acc' & tr' & ->).
    { destruct (isShuttingDown s); injection Hstep as <-; eauto. }
    by split.
  - destruct (Shutdown_step pc s) as [[pc' s']|] eqn:Hsh; [|done].
    injection Hstep as <-.
    assert (sessions s' = sessions s) as Hsame.
    { destruct pc; simpl in Hsh.
      - by injection Hsh as <- <-.
      - destruct (listener s); [|done]. by injection Hsh as <- <-.
      - destruct (chan_closed (acceptConns s)); [done|].
        by injection Hsh as <- <-.
      - done. }
    split; simpl; rewrite Hsame; done.
  - destruct mgr; try done.
    destruct (recv_acceptConns s acc); [|done]. by injection Hstep as <-.
  - destruct mgr as [|newConn|]; try done.
    unfold manageSessions_newConn in Hstep.
    destruct (match newConn with
              | Some _ => false
              | None => isShuttingDown s
              end).
    + by injection Hstep as <-.
    + injection Hstep as <-. split; simpl.
      * intros c session Hc.
        apply lookup_insert_Some in Hc as [[_ <-]|[_ Hc]]; simpl; [lia|].
        pose proof (Hfresh c session Hc). lia.
      * intros c1 c2 session1 session2 H1 H2 Href.
        apply lookup_insert_Some in H1 as [[<- <-]|[Hne1 H1]];
          apply lookup_insert_Some in H2 as [[<- <-]|[Hne2 H2]];
          simpl in Href.
        -- done.
        -- pose proof (Hfresh c2 session2 H2). lia.
        -- pose proof (Hfresh c1 session1 H1). lia.
        -- by apply (Hinj c1 c2 session1 session2).
  - destruct mgr; try done. injection Hstep as <-. split; simpl.
    + intros c session Hc. apply lookup_delete_Some in Hc as [_ Hc].
      by apply (Hfresh c session).
    + intros c1 c2 session1 session2 H1 H2.
      apply lookup_delete_Some in H1 as [_ H1].
      apply lookup_delete_Some in H2 as [_ H2].
      by apply (Hinj c1 c2 session1 session2).
Qed.

(** In every state the system reaches, the sessions of the session set
    are pairwise distinct: the premise of the broadcast property. *)
Lemma manager_sessions_distinct (config : Config) (steps : list Step) st :
  sys_run newClientContext (sys_init getLangStrings config) steps = Some st ->
  sessions_distinct (sys_server st).
Proof.
  intros Hrun.
  assert (Hfresh : manager_sessions_fresh st).
  { revert Hrun.
    assert (Hinit : manager_sessions_fresh (sys_init getLangStrings config)).
    { split; simpl; intros c; intros; by rewrite lookup_empty in *. }
    revert Hinit. generalize (sys_init getLangStrings config).
    induction steps as [|l steps IH]; intros st0 Hinv Hrun.
    - by injection Hrun as <-.
    - simpl in Hrun.
      destruct (sys_step newClientContext st0 l) as [st1|] eqn:Hstep;
        [|done].
      apply (IH st1); [by eapply manager_sessions_fresh_step|done]. }
  destruct Hfresh as [_ Hinj]. unfold sessions_distinct.
  apply NoDup_fmap_2_strong; [|apply NoDup_map_to_list].
  intros [c1 session1] [c2 session2] H1 H2 Href. simpl in Href.
  apply elem_of_map_to_list in H1, H2.
  assert (c1 = c2) as -> by (by eapply Hinj).
  rewrite H1 in H2. by injection H2 as ->.
Qed.

(** C4: in every state the system reaches from a started server, through
    any interleaving of the acceptor, the statements of [Shutdown] and the
    session manager's receives and case bodies: once the handoff channel is
    closed the manager's receive yields nil; a manager holding a nil
    connection finds the shutdown flag set and returns from its loop,
    leaving the session set and the trace as they are and allocating no
    session; a returned manager takes no further step; and no session is
    ever registered under the nil connection. *)
Theorem manageSessions_closed_handoff (config : Config)
    (steps : list Step) st :
  sys_run newClientContext (sys_init getLangStrings config) steps = Some st ->
  (chan_closed (acceptConns (sys_server st)) = true ->
     sys_manager st = ManagerSelect ->
     sys_step newClientContext st StepManagerRecvAccept
       = Some {| sys_server := sys_server st;
                 sys_acceptor := sys_acceptor st;
                 sys_manager := ManagerReceived None;
                 sys_shutdown := sys_shutdown st;
                 sys_nextRef := sys_nextRef st;
                 sys_trace := sys_trace st |})
  /\ (sys_manager st = ManagerReceived None ->
       isShuttingDown (sys_server st) = true
       /\ sys_step newClientContext st StepManagerNewConn
           = Some {| sys_server := sys_server st;
                     sys_acceptor := sys_acceptor st;
                     sys_manager := ManagerReturned;
                     sys_shutdown := sys_shutdown st;
                     sys_nextRef := sys_nextRef st;
                     sys_trace := sys_trace st |})
  /\ (sys_manager st = ManagerReturned ->
       forall delConn,
         sys_step newClientContext st StepManagerRecvAccept = None
         /\ sys_step newClientContext st StepManagerNewConn = None
         /\ sys_step newClientContext st (StepManagerRecvDelete delConn)
             = None)
  /\ sessions (sys_server st) !! (None : Conn) = None.
Proof.
  intros Hrun.
  destruct (manager_invariant_run steps _ st
              (manager_invariant_init config) Hrun)
    as (_ & _ & Hrecv & Hnil).
  split; [|split; [|split; [|exact Hnil]]].
  - intros Hclosed Hmgr. simpl. rewrite Hmgr.
    unfold recv_acceptConns. by rewrite Hclosed.
  - intros Hmgr. split; [by apply Hrecv|]. simpl. rewrite Hmgr.
    unfold manageSessions_newConn. rewrite (Hrecv Hmgr).
    by rewrite app_nil_r.
  - intros Hmgr delConn. simpl. by rewrite Hmgr.
Qed.

(** The acceptor's side of the shutdown: with the flag set, an [Accept]
    error takes the acceptor out of its loop without a log entry. *)
Lemma acceptClients_stops_on_shutdown st (err : error) :
  isShuttingDown (sys_server st) = true ->
  sys_acceptor st = AcceptorAccept ->
  sys_step newClientContext st (StepAcceptError err)
    = Some {| sys_server := sys_server st;
              sys_acceptor := AcceptorStopped;
              sys_manager := sys_manager st;
              sys_shutdown := sys_shutdown st;
              sys_nextRef := sys_nextRef st;
              sys_trace := sys_trace st |}.
Proof.
  intros Hflag Hacc. simpl. rewrite Hacc.
  unfold acceptClients_error. rewrite Hflag. by rewrite app_nil_r.
Qed.

(** Outside shutdown the same case body does register a session under
    the connection it is given, nil included: the guard on nil acts only
    when the flag is set. *)
Lemma manageSessions_newConn_registers (ref : SessionRef) s
    (newConn : Conn) :
  isShuttingDown s = false ->
  manageSessions_newConn newClientContext ref s newConn
    = (set_sessions
         (<[newConn := NewSession newClientContext ref s newConn]>
            (sessions s)) s,
       [SessionStart ref], LoopContinue).
Proof.
  intros Hflag. unfold manageSessions_newConn. rewrite Hflag.
  by destruct newConn.
Qed.

End SessionManager.

(** *** Guild-member data access *)

Section GuildDataFacts.

Context {Row : Type}.
Context (Queryx : string -> list Z -> error + list Row).
Context (scan_row : Row -> error + GuildMember).

(** C10: when the membership query for a character id yields no row,
    [GetCharacterGuildData] returns no member and no error, and logs
    nothing. *)
Theorem GetCharacterGuildData_not_found (charID : Z) :
  Queryx characterGuildDataSQL [charID] = inr [] ->
  GetCharacterGuildData Queryx scan_row charID = ([], (None, None)).
Proof.
  intros Hquery. unfold GetCharacterGuildData. by rewrite Hquery.
Qed.

(** Conversely the pair (nil, nil) is returned only for a query that
    succeeded without rows: a failed query and a failed row decoding both
    return the error, a decoded row returns the member. *)
Lemma GetCharacterGuildData_outcomes (charID : Z) :
  match Queryx characterGuildDataSQL [charID] with
  | inl err =>
      (GetCharacterGuildData Queryx scan_row charID).2 = (None, Some err)
  | inr [] =>
      (GetCharacterGuildData Queryx scan_row charID).2 = (None, None)
  | inr (r :: _) =>
      (GetCharacterGuildData Queryx scan_row charID).2
        = match scan_row r with
          | inl err => (None, Some err)
          | inr member => (Some member, None)
          end
  end.
Proof.
  unfold GetCharacterGuildData.
  destruct (Queryx characterGuildDataSQL [charID]) as [err|[|r rows]];
    [done|done|].
  simpl. unfold buildGuildMemberObjectFromDBResult, Rows_StructScan. simpl.
  by destruct (scan_row r).
Qed.

End GuildDataFacts.

(** ** The properties at concrete inputs *)

(** With two joined sessions and the lower threshold the multiplier is 2. *)
Lemma GetRaviMultiplier_spec_witness :
  (forall sem,
     Examples.getRaviSemaphore (Examples.serverWithRavi [1; 2]%positive)
       = Some sem ->
     1 <= occupancy sem)
  /\ GetRaviMultiplier Examples.getRaviSemaphore NewRaviente
       (Examples.serverWithRavi [1; 2]%positive) = Go.Ok 2
  /\ ravi_threshold NewRaviente = 4.
Proof.
  assert (Hocc : forall sem,
            Examples.getRaviSemaphore (Examples.serverWithRavi [1; 2]%positive)
              = Some sem ->
            1 <= occupancy sem).
  { intros sem Hsem. vm_compute in Hsem. injection Hsem as <-.
    vm_compute. discriminate. }
  split; [exact Hocc|].
  destruct (GetRaviMultiplier_spec Examples.getRaviSemaphore NewRaviente
              (Examples.serverWithRavi [1; 2]%positive) Hocc)
    as (_ & Hsome & _ & Hsmall).
  split.
  - apply (Hsome (Examples.raviSema [1; 2]%positive) eq_refl).
    vm_compute. discriminate.
  - apply Hsmall. vm_compute. discriminate.
Defined.

(** Without the premise of a joined session the multiplier is not the
    quotient: on a raviente semaphore nobody has joined, the occupancy 0
    does not exceed the threshold 4, yet the call yields no value. *)
Lemma GetRaviMultiplier_unjoined_semaphore :
  Examples.getRaviSemaphore (Examples.serverWithRavi [])
    = Some (Examples.raviSema [])
  /\ occupancy (Examples.raviSema []) = 0
  /\ ~ (ravi_threshold NewRaviente < occupancy (Examples.raviSema []))
  /\ GetRaviMultiplier Examples.getRaviSemaphore NewRaviente
       (Examples.serverWithRavi [])
     = Go.Panic "integer divide by zero"
  /\ GetRaviMultiplier Examples.getRaviSemaphore NewRaviente
       (Examples.serverWithRavi [])
     <> Go.Ok (ravi_threshold NewRaviente
               / occupancy (Examples.raviSema [])).
Proof.
  split; [reflexivity|]. split; [reflexivity|].
  split; [vm_compute; discriminate|]. split; [reflexivity|].
  vm_compute. discriminate.
Qed.

(** The zero divisor on the same server, by evaluation. *)
Example GetRaviMultiplier_zero_divisor_example :
  GetRaviMultiplier Examples.getRaviSemaphore NewRaviente
    (Examples.serverWithRavi [])
  = Go.Panic "integer divide by zero".
Proof. vm_compute. reflexivity. Qed.

(** With the cursor at the top of the range and the ids 7 and 8 in use,
    the allocator wraps to 7 and returns 9. *)
Lemma NextSemaphoreID_spec_witness :
  allocatable_id (semaphoreIndex Examples.serverAtTop)
  /\ (exists i, allocatable_id i
        /\ ~ live_id (semaphore Examples.serverAtTop) i)
  /\ exists (fuel : nat) (id : Z),
       (forall n, (fuel <= n)%nat ->
          NextSemaphoreID n Examples.serverAtTop
            = Some (id, set_semaphoreIndex id Examples.serverAtTop))
       /\ (forall n r, NextSemaphoreID n Examples.serverAtTop = Some r ->
             r = (id, set_semaphoreIndex id Examples.serverAtTop))
       /\ ~ live_id (semaphore Examples.serverAtTop) id
       /\ ~ reserved_id id
       /\ 0 <= id < Go.uint32_mod
       /\ (semaphoreIndex Examples.serverAtTop = Go.uint32_max ->
             semaphoreIndex (NextSemaphoreID_pass Examples.serverAtTop).1
               = first_unreserved_id
             /\ semaphoreIndex (NextSemaphoreID_pass Examples.serverAtTop).1
                  <> 0
             /\ (forall j, allocatable_id j ->
                   ~ live_id (semaphore Examples.serverAtTop) j -> id <= j)).
Proof.
  assert (Hcursor : allocatable_id (semaphoreIndex Examples.serverAtTop)).
  { split; by vm_compute. }
  assert (Hfree : exists i, allocatable_id i
                    /\ ~ live_id (semaphore Examples.serverAtTop) i).
  { exists 9. split; [split; by vm_compute|].
    apply semaphore_id_exists_free. vm_compute. reflexivity. }
  split; [exact Hcursor|]. split; [exact Hfree|].
  exact (NextSemaphoreID_spec Examples.serverAtTop Hcursor Hfree).
Defined.

Example NextSemaphoreID_wraps_to_nine :
  NextSemaphoreID 3 Examples.serverAtTop
    = Some (9, set_semaphoreIndex 9 Examples.serverAtTop).
Proof. vm_compute. reflexivity. Qed.

Lemma lobby_sessions_distinct : sessions_distinct Examples.lobby.
Proof.
  unfold sessions_distinct. apply (bool_decide_unpack _).
  vm_compute. exact I.
Qed.

(** A broadcast to the three sessions of the lobby that excludes
    session 2. *)
Lemma BroadcastMHF_once_witness :
  let tr :=
    BroadcastMHF_in (ByteFrameOps0:=Examples.frameOps)
      (MHFPacket1:=Examples.castedBinaryPacket)
      (map_to_list (sessions Examples.lobby)) Examples.chatPacket
      (Some 2%positive) in
  map_to_list (sessions Examples.lobby)
    ≡ₚ map_to_list (sessions Examples.lobby)
  /\ sessions_distinct Examples.lobby
  /\ enqueues_to 1 tr = [[0; 31; 40; 255; 255; 255; 255; 0; 1; 104; 105]]
  /\ enqueues_to 2 tr = []
  /\ enqueues_to 3 tr = [[0; 31; 42; 255; 255; 255; 255; 0; 1; 104; 105]].
Proof.
  intros tr.
  split; [reflexivity|]. split; [exact lobby_sessions_distinct|].
  destruct (BroadcastMHF_once (ByteFrameOps0:=Examples.frameOps)
              (MHFPacket0:=Examples.castedBinaryPacket)
              Examples.lobby Examples.chatPacket (Some 2%positive)
              (map_to_list (sessions Examples.lobby))
              (reflexivity _) lobby_sessions_distinct)
    as (Hone & Hignored & _).
  split; [|split].
  - apply (Hone (Some 11%positive) (Examples.session 1 40));
      [reflexivity|discriminate].
  - apply (Hignored 2%positive). reflexivity.
  - apply (Hone (Some 13%positive) (Examples.session 3 42));
      [reflexivity|discriminate].
Defined.

(** The shutdown of a started server that has accepted one connection:
    the manager, having received nil from the closed channel, returns. *)
Lemma manageSessions_closed_handoff_witness :
  exists st,
    sys_run 40 (sys_init Examples.getLangStrings Examples.config)
      Examples.shutdownSteps = Some st
    /\ sys_manager st = ManagerReceived None
    /\ isShuttingDown (sys_server st) = true
    /\ sys_step 40 st StepManagerNewConn
       = Some {| sys_server := sys_server st;
                 sys_acceptor := sys_acceptor st;
                 sys_manager := ManagerReturned;
                 sys_shutdown := sys_shutdown st;
                 sys_nextRef := sys_nextRef st;
                 sys_trace := sys_trace st |}
    /\ sessions (sys_server st) !! (None : Conn) = None.
Proof.
  destruct (sys_run 40 (sys_init Examples.getLangStrings Examples.config)
              Examples.shutdownSteps) as [st|] eqn:Hrun;
    [|vm_compute in Hrun; discriminate].
  exists st. split; [reflexivity|].
  assert (Hmgr : sys_manager st = ManagerReceived None).
  { vm_compute in Hrun. by injection Hrun as <-. }
  split; [exact Hmgr|].
  destruct (manageSessions_closed_handoff Examples.getLangStrings 40
              Examples.config Examples.shutdownSteps st Hrun)
    as (_ & Hreturn & _ & Hnil).
  destruct (Hreturn Hmgr) as [Hflag Hstep].
  split; [exact Hflag|]. split; [exact Hstep|exact Hnil].
Defined.

Lemma cluster_channels_exist (c : ServerRef) :
  c ∈ Channels (Examples.withChannels [1%positive; 2%positive] Examples.lobby) ->
  is_Some (Examples.cluster !! c).
Proof.
  intros Hc. simpl in Hc.
  apply elem_of_cons in Hc as [->|Hc]; [by eexists|].
  apply elem_of_cons in Hc as [->|Hc]; [by eexists|].
  by apply elem_of_nil in Hc.
Qed.

(** An announcement with the unknown event-type code 9, sent from the
    lobby: the error is logged and the only session of the other channel
    is sent the message with the empty text. *)
Lemma BroadcastRaviente_spec_witness :
  Examples.cluster !! 1%positive
    = Some (Examples.withChannels [1%positive; 2%positive] Examples.lobby)
  /\ (forall c,
        c ∈ Channels
              (Examples.withChannels [1%positive; 2%positive] Examples.lobby) ->
        is_Some (Examples.cluster !! c))
  /\ BroadcastRaviente (ByteFrameOps0:=Examples.frameOps) Examples.ps_Uint16
       (MHFPacket0:=Examples.castedBinaryPacket)
       Examples.BroadcastTypeServer Examples.BinaryMessageTypeChat
       Examples.cluster 1%positive 2130706433 54001 [1; 2; 3] 9
     = ([LogError "Unk raviente type" [FieldUint "_type" 9];
         QueueSendNonBlocking 4
           [0; 31; 43; 0; 0; 0; 0; 6; 1; 0; 0; 67; 0; 3; 0; 1; 0; 0; 95; 83;
            0; 1; 0; 0; 127; 241; 210; 0; 0; 1; 2; 3]],
        Go.Ok tt).
Proof.
  split; [reflexivity|]. split; [exact cluster_channels_exist|].
  destruct (BroadcastRaviente_spec (ByteFrameOps0:=Examples.frameOps)
              Examples.ps_Uint16 (MHFPacket0:=Examples.castedBinaryPacket)
              Examples.BroadcastTypeServer Examples.BinaryMessageTypeChat
              Examples.cluster 1%positive
              (Examples.withChannels [1%positive; 2%positive] Examples.lobby)
              2130706433 54001 [1; 2; 3] 9
              eq_refl cluster_channels_exist)
    as (_ & _ & _ & _ & Hunknown & _).
  rewrite Hunknown by discriminate. vm_compute. reflexivity.
Defined.

Lemma serverWithObject_owner (k : string) (i : Z) (o : Object) :
  owns_object Examples.serverWithObject 42 k i o ->
  k = "sl1Ns211p0a0u0" /\ i = 2.
Proof.
  intros (st & Hk & Hi & Hown).
  apply elem_of_map_to_list in Hk, Hi.
  set (entries := map_to_list (stages Examples.serverWithObject)) in Hk.
  vm_compute in entries. subst entries.
  repeat (apply elem_of_cons in Hk as [Hk|Hk];
          [injection Hk as -> ->;
           set (objs := map_to_list _) in Hi; vm_compute in objs; subst objs;
           repeat (apply elem_of_cons in Hi as [Hi|Hi];
                   [injection Hi as -> ->; try done|]);
           by apply elem_of_nil in Hi|]).
  by apply elem_of_nil in Hk.
Qed.

(** Character 42 owns exactly one object, the object 2 of the rasta
    bar, and the lookup returns it. *)
Lemma FindObjectByChar_spec_witness :
  stage_visit Examples.serverWithObject
    (range (stages Examples.serverWithObject))
    (fun k =>
       from_option object_ids [] (stages Examples.serverWithObject !! k))
  /\ owns_object Examples.serverWithObject 42 "sl1Ns211p0a0u0" 2
       {| obj_id := 2; ownerCharID := 42 |}
  /\ (forall k' i' o',
        owns_object Examples.serverWithObject 42 k' i' o' ->
        k' = "sl1Ns211p0a0u0" /\ i' = 2)
  /\ FindObjectByChar Examples.serverWithObject 42
     = Go.Ok (Some {| obj_id := 2; ownerCharID := 42 |}).
Proof.
  assert (Hvisit := FindObjectByChar_visit Examples.serverWithObject).
  assert (Howns : owns_object Examples.serverWithObject 42 "sl1Ns211p0a0u0"
                    2 {| obj_id := 2; ownerCharID := 42 |}).
  { eexists. split; [reflexivity|]. split; reflexivity. }
  split; [exact Hvisit|]. split; [exact Howns|].
  split; [exact serverWithObject_owner|].
  exact (proj2 (FindObjectByChar_spec Examples.serverWithObject 42 _ _ Hvisit)
           _ _ _ Howns serverWithObject_owner).
Defined.

(** Character 7 has no membership row in the example database. *)
Lemma GetCharacterGuildData_not_found_witness :
  Examples.Queryx characterGuildDataSQL [7] = inr []
  /\ GetCharacterGuildData Examples.Queryx Examples.scan_row 7
     = ([], (None, None)).
Proof.
  split; [reflexivity|].
  exact (GetCharacterGuildData_not_found Examples.Queryx Examples.scan_row 7
           eq_refl).
Defined.

(** ** Further properties *)

(** *** Semaphore-id allocator *)

Section AllocatorOrder.

Context {ClientContext : Type}.
Implicit Types (s : Server ClientContext) (sems : gmap string Semaphore).

(** Whatever the cursor, an id the loop exits with is not live, and the
    semaphore map is left as it was. *)
Lemma NextSemaphoreID_result_free (n : nat) s (id : Z) s' :
  NextSemaphoreID n s = Some (id, s') ->
  ~ live_id (semaphore s) id /\ semaphore s' = semaphore s.
Proof.
  revert s. induction n as [|n IH]; intros s Hrun; [discriminate|].
  rewrite NextSemaphoreID_unfold in Hrun.
  destruct (semaphore_id_exists _ _) eqn:Hex.
  - apply (IH (set_semaphoreIndex (next_cursor (semaphoreIndex s)) s) Hrun).
  - injection Hrun as <- <-. split; [|reflexivity].
    by apply semaphore_id_exists_free.
Qed.



Lemma ids_distinct_insert sems (k : string) (sem : Semaphore) :
  ids_distinct sems -> ~ live_id sems (sem_id sem) ->
  ids_distinct (<[k := sem]> sems).
Proof.
  intros Hdist Hfree k1 k2 sem1 sem2 H1 H2 Heq.
  apply lookup_insert_Some in H1 as [[<- <-]|[Hne1 H1]];
    apply lookup_insert_Some in H2 as [[<- <-]|[Hne2 H2]].
  - done.
  - exfalso. apply Hfree. by exists k2, sem2.
  - exfalso. apply Hfree. by exists k1, sem1.
  - by apply (Hdist k1 k2 sem1 sem2).
Qed.

(** X2: an id returned by [NextSemaphoreID] can be given to a new
    semaphore: when the live semaphores have pairwise distinct ids, they
    still have after a semaphore carrying the returned id is registered,
    under a new name or in place of an old one. *)
Theorem NextSemaphoreID_keeps_ids_distinct (n : nat) s (id : Z) s'
    (k : string) (clients : gset positive) :
  ids_distinct (semaphore s) ->
  NextSemaphoreID n s = Some (id, s') ->
  ids_distinct
    (semaphore
       (set_semaphore
          (<[k := {| id_semaphore := k; sem_id := id;
                     sem_clients := clients |}]> (semaphore s')) s')).
Proof.
  intros Hdist Hrun.
  destruct (NextSemaphoreID_result_free n s id s' Hrun) as [Hfree ->].
  simpl. by apply ids_distinct_insert.
Qed.



End AllocatorOrder.

(** *** Raviente multiplier *)

Section MultiplierBounds.

Context {ClientContext : Type}.
Context (getRaviSemaphore : Server ClientContext -> option Semaphore).

Lemma multiplier_of_spec_joined (r : Raviente) (sem : Semaphore) :
  1 <= occupancy sem ->
  1 <= multiplier_of_spec r (Some sem) <= ravi_threshold r.
Proof.
  intros Hocc. unfold multiplier_of_spec.
  assert (4 <= ravi_threshold r) as Hthr
    by (destruct (ravi_threshold_cases r) as [[_ ->]|[_ ->]]; lia).
  destruct (Z.ltb_spec (ravi_threshold r) (occupancy sem)); [lia|].
  split.
  - apply Z.div_le_lower_bound; lia.
  - apply Z.div_le_upper_bound; nia.
Qed.

Lemma GetRaviMultiplier_returns (r : Raviente) (s : Server ClientContext)
    (v : Z) :
  GetRaviMultiplier getRaviSemaphore r s = Go.Ok v ->
  (forall sem, getRaviSemaphore s = Some sem -> 1 <= occupancy sem)
  /\ v = multiplier_of_spec r (getRaviSemaphore s).
Proof.
  intros Hv.
  assert (Hocc : forall sem, getRaviSemaphore s = Some sem ->
            1 <= occupancy sem).
  { intros sem Hsem. pose proof (occupancy_nonneg sem).
    destruct (Z.eq_dec (occupancy sem) 0) as [H0|]; [|lia].
    exfalso. revert Hv. unfold GetRaviMultiplier. rewrite Hsem.
    fold (occupancy sem). rewrite H0.
    by destruct (8 <? maxPlayers (register r)). }
  split; [exact Hocc|].
  rewrite (GetRaviMultiplier_value getRaviSemaphore r s Hocc) in Hv.
  by injection Hv.
Qed.

(** X4: a multiplier that is returned lies between 0 and 24; it is 0
    exactly when there is no raviente semaphore, at least 1 otherwise,
    and at most 4 when the max-player target is 8 or less. *)
Theorem GetRaviMultiplier_bounds (r : Raviente) (s : Server ClientContext)
    (v : Z) :
  GetRaviMultiplier getRaviSemaphore r s = Go.Ok v ->
  0 <= v <= 24
  /\ (v = 0 <-> getRaviSemaphore s = None)
  /\ (maxPlayers (register r) <= 8 -> v <= 4).
Proof.
  intros Hv.
  destruct (GetRaviMultiplier_returns r s v Hv) as [Hocc ->].
  destruct (getRaviSemaphore s) as [sem|] eqn:Hsem.
  - pose proof (multiplier_of_spec_joined r sem (Hocc sem eq_refl)) as Hb.
    destruct (ravi_threshold_cases r) as [[? Hthr]|[? Hthr]];
      rewrite Hthr in Hb; (split; [lia|split; [split; [lia|done]|lia]]).
  - simpl. split; [lia|]. split; [done|lia].
Qed.

(** X5: the multiplier does not grow with participation: between two
    states of the raviente semaphore, the one with more joined sessions
    has the smaller or equal multiplier. *)
Theorem GetRaviMultiplier_antitone (r : Raviente)
    (s1 s2 : Server ClientContext) (sem1 sem2 : Semaphore) (v1 v2 : Z) :
  getRaviSemaphore s1 = Some sem1 -> getRaviSemaphore s2 = Some sem2 ->
  occupancy sem1 <= occupancy sem2 ->
  GetRaviMultiplier getRaviSemaphore r s1 = Go.Ok v1 ->
  GetRaviMultiplier getRaviSemaphore r s2 = Go.Ok v2 ->
  v2 <= v1.
Proof.
  intros Hsem1 Hsem2 Hle Hv1 Hv2.
  destruct (GetRaviMultiplier_returns r s1 v1 Hv1) as [Hocc1 ->].
  destruct (GetRaviMultiplier_returns r s2 v2 Hv2) as [Hocc2 ->].
  rewrite Hsem1, Hsem2.
  specialize (Hocc1 sem1 Hsem1). specialize (Hocc2 sem2 Hsem2).
  pose proof (multiplier_of_spec_joined r sem1 Hocc1) as Hb1.
  unfold multiplier_of_spec in *.
  destruct (Z.ltb_spec (ravi_threshold r) (occupancy sem2)); [lia|].
  destruct (Z.ltb_spec (ravi_threshold r) (occupancy sem1)); [lia|].
  apply Z.div_le_compat_l; lia.
Qed.

End MultiplierBounds.

(** *** Object and session lookup *)

Section Lookups.

Context {ClientContext : Type}.
Implicit Types (s : Server ClientContext) (st : Stage)
  (σ : gmap positive (Server ClientContext)).

(** X6: in whatever order the stages and objects are visited,
    [FindObjectByChar] does not panic; an object it returns is owned by
    the character, in some stage of the server; and it returns nil only
    when the character owns no object at all. *)
Theorem FindObjectByChar_sound s (charID' : Z)
    (visit : list (string * Stage)) (objOrder : string -> list Z) :
  stage_visit s visit objOrder ->
  exists res,
    FindObjectByChar_in visit objOrder charID' = Go.Ok res
    /\ (forall o, res = Some o -> exists k i, owns_object s charID' k i o)
    /\ (res = None <-> forall k i o, ~ owns_object s charID' k i o).
Proof.
  intros Hvisit.
  destruct (FindObjectByChar_in_spec visit objOrder charID')
    as [[Hres Hall]|(k0 & st0 & i0 & o0 & Hin & Hi & Ho & Hown & Hres)].
  { intros k st i Hin Hi.
    apply (stage_visit_entry s visit objOrder) in Hin; [|done].
    by apply (stage_visit_object s visit objOrder k st i). }
  - exists None. split; [done|]. split; [done|]. split; [|done].
    intros _ k i o (st & Hk & Hi & Hown).
    apply (Hall k st i o); [| |done|done].
    + by apply (stage_visit_entry s visit objOrder).
    + apply (stage_visit_object s visit objOrder k st i); [done|done|].
      by exists o.
  - apply (stage_visit_entry s visit objOrder) in Hin; [|done].
    assert (owns_object s charID' k0 i0 o0) as Howns by (by exists st0).
    exists (Some o0). split; [done|]. split.
    + intros o [= <-]. by exists k0, i0.
    + split; [done|]. intros Hnone. by destruct (Hnone k0 i0 o0).
Qed.

Lemma NewServer_stages_empty getLangStrings (config : Config)
    (k : string) st :
  stages (NewServer (ClientContext:=ClientContext) getLangStrings config)
    !! k = Some st ->
  objects st = ∅.
Proof.
  intros Hk. apply elem_of_map_to_list in Hk.
  set (entries := map_to_list _) in Hk. vm_compute in entries.
  subst entries.
  repeat (apply elem_of_cons in Hk as [Hk|Hk];
          [by injection Hk as -> ->|]).
  by apply elem_of_nil in Hk.
Qed.

(** X7: on a freshly constructed server no character owns an object:
    [FindObjectByChar] returns nil for every character id, in every
    visiting order. *)
Theorem FindObjectByChar_fresh_server getLangStrings (config : Config)
    (charID' : Z) (visit : list (string * Stage))
    (objOrder : string -> list Z) :
  stage_visit (NewServer (ClientContext:=ClientContext) getLangStrings config)
    visit objOrder ->
  FindObjectByChar_in visit objOrder charID' = Go.Ok None.
Proof.
  intros Hvisit.
  set (s0 := NewServer getLangStrings config) in *.
  destruct (FindObjectByChar_in_spec visit objOrder charID')
    as [[Hres _]|(k0 & st0 & i0 & o0 & Hin & _ & Ho & _)].
  - intros k st i Hin Hi.
    apply (stage_visit_entry s0 visit objOrder) in Hin; [|done].
    by apply (stage_visit_object s0 visit objOrder k st i) in Hi.
  - done.
  - apply (stage_visit_entry s0 visit objOrder) in Hin; [|done].
    apply NewServer_stages_empty in Hin. rewrite Hin in Ho.
    by rewrite lookup_empty in Ho.
Qed.

Lemma scan_sessions_spec (visit : list (Conn * Session ClientContext))
    (charID' : Z) :
  (scan_sessions visit charID' = None
   /\ forall kv, kv ∈ visit -> charID kv.2 <> charID')
  \/ (exists kv, kv ∈ visit /\ charID kv.2 = charID'
        /\ scan_sessions visit charID' = Some kv.2).
Proof.
  induction visit as [|[c session] visit IH]; simpl.
  - left. split; [done|]. intros kv Hin. by apply elem_of_nil in Hin.
  - destruct (Z.eqb_spec (charID session) charID') as [Heq|Hne].
    + right. exists (c, session). split; [by left|done].
    + destruct IH as [[Hnone Hall]|(kv & Hin & Heq & Hres)].
      * left. split; [done|]. intros kv Hin.
        apply elem_of_cons in Hin as [->|Hin]; [done|by apply Hall].
      * right. exists kv. split; [by right|done].
Qed.

(** X8: when every pointer of [Channels] is a channel server,
    [FindSessionByCharID] does not panic, whatever the order in which the
    session maps are visited; a session it returns has the character id
    asked for and is registered in one of the channels; and it returns
    nil exactly when no session of any of the channels has that id. *)
Theorem FindSessionByCharID_spec σ (channels : list positive)
    (sessOrder : positive -> list (Conn * Session ClientContext))
    (charID' : Z) :
  (forall c, c ∈ channels -> is_Some (σ !! c)) ->
  session_visit σ sessOrder ->
  exists res,
    FindSessionByCharID_in σ channels sessOrder charID' = Go.Ok res
    /\ (forall session, res = Some session ->
          charID session = charID'
          /\ exists c, c ∈ channels /\ session_in_channel σ c session)
    /\ (res = None <->
        forall c session, c ∈ channels -> session_in_channel σ c session ->
          charID session <> charID').
Proof.
  intros Hall Hvisit.
  induction channels as [|c channels IH]; simpl.
  - exists None. split; [done|]. split; [done|]. split; [|done].
    intros _ c session Hc. by apply elem_of_nil in Hc.
  - destruct (Hall c) as [srv Hsrv]; [by left|]. rewrite Hsrv.
    assert (Hentry : forall kv, kv ∈ sessOrder c <->
              sessions srv !! kv.1 = Some kv.2).
    { intros [conn session]. rewrite (Hvisit c srv Hsrv).
      apply elem_of_map_to_list. }
    destruct (scan_sessions_spec (sessOrder c) charID')
      as [[-> Hnone]|([conn session] & Hin & Heq & ->)].
    + destruct IH as (res & -> & Hsome & Hnil).
      { intros c' Hc'. apply Hall. by right. }
      exists res. split; [done|]. split.
      * intros session Hres. destruct (Hsome session Hres)
          as (Hid & c' & Hc' & Hin).
        split; [done|]. exists c'. split; [by right|done].
      * rewrite Hnil. split.
        -- intros Hrest c' session Hc' Hin.
           apply elem_of_cons in Hc' as [->|Hc']; [|by eapply Hrest].
           destruct Hin as (srv' & conn & Hsrv' & Hconn).
           rewrite Hsrv in Hsrv'. injection Hsrv' as <-.
           apply (Hnone (conn, session)). by apply Hentry.
        -- intros Hno c' session Hc'. apply Hno. by right.
    + apply Hentry in Hin. simpl in Hin, Heq.
      assert (session_in_channel σ c session) as Hreg
        by (by exists srv, conn).
      exists (Some session). split; [done|]. split.
      * intros session' [= <-]. split; [done|].
        exists c. split; [by left|done].
      * split; [done|]. intros Hno. exfalso.
        apply (Hno c session); [by left|done|done].
Qed.

End Lookups.

(** *** Broadcast and worldcast *)

Section Fanout.

Context {ClientContext ByteFrame : Type} `{!ByteFrameOps ByteFrame}.
Context {P : Type}
  `{!MHFPacket (ClientContext:=ClientContext) (ByteFrame:=ByteFrame) P}.
Implicit Types (s : Server ClientContext) (session : Session ClientContext)
  (visit : list (Conn * Session ClientContext)) (pkt : P)
  (ignoredSession : option positive) (tr : list Event)
  (σ : gmap positive (Server ClientContext)).

(** X9: the order in which the session map is visited matters only to
    the order of the enqueues: two broadcasts of one packet over the same
    entries make the same enqueue attempts, up to their order. *)
Theorem BroadcastMHF_order_irrelevant visit visit' pkt ignoredSession :
  visit ≡ₚ visit' ->
  BroadcastMHF_in visit pkt ignoredSession
    ≡ₚ BroadcastMHF_in visit' pkt ignoredSession.
Proof.
  intros Hperm. unfold BroadcastMHF_in. by apply Permutation_flat_map.
Qed.

Lemma BroadcastMHF_in_length_all visit pkt :
  length (BroadcastMHF_in visit pkt None) = length visit.
Proof.
  induction visit as [|kv visit IH]; [done|].
  rewrite BroadcastMHF_in_cons, length_app, IH. reflexivity.
Qed.

Lemma BroadcastMHF_in_length_but_one visit pkt (ref : positive) :
  NoDup ((fun kv => sess_ref kv.2) <$> visit) ->
  (length (BroadcastMHF_in visit pkt (Some ref))
   + (if decide (ref ∈ (fun kv => sess_ref kv.2) <$> visit) then 1 else 0)
   = length visit)%nat.
Proof.
  induction visit as [|kv visit IH]; intros Hnodup.
  { destruct (decide _) as [Hin|]; [by apply elem_of_nil in Hin|done]. }
  rewrite fmap_cons in *. apply NoDup_cons in Hnodup as [Hfresh Hnodup].
  rewrite BroadcastMHF_in_cons, length_app. specialize (IH Hnodup).
  unfold BroadcastMHF_session.
  destruct (decide (Some (sess_ref kv.2) = Some ref)) as [Heq|Hne].
  - injection Heq as Heq. rewrite Heq in Hfresh.
    rewrite decide_False in IH by done.
    rewrite decide_True by (rewrite Heq; by left). simpl. simpl in IH. lia.
  - assert (sess_ref kv.2 <> ref) by congruence.
    destruct (decide (ref ∈ (fun kv => sess_ref kv.2) <$> visit))
      as [Hin|Hout].
    + rewrite decide_True by (by right). simpl. lia.
    + rewrite decide_False; [simpl; lia|].
      intros [?|?]%elem_of_cons; done.
Qed.

(** X10: a broadcast that excludes nobody makes as many enqueue attempts
    as the channel has connections; one that excludes a session of the
    channel makes one fewer. *)
Theorem BroadcastMHF_count s pkt visit :
  visit ≡ₚ map_to_list (sessions s) ->
  sessions_distinct s ->
  length (BroadcastMHF_in visit pkt None) = size (sessions s)
  /\ (forall c session, sessions s !! c = Some session ->
        S (length (BroadcastMHF_in visit pkt (Some (sess_ref session))))
          = size (sessions s)).
Proof.
  intros Hperm Hdistinct. unfold sessions_distinct in Hdistinct.
  rewrite <- Hperm in Hdistinct.
  assert (length visit = size (sessions s)) as Hlen
    by (by rewrite Hperm, length_map_to_list).
  split; [by rewrite BroadcastMHF_in_length_all|].
  intros c session Hc.
  pose proof (BroadcastMHF_in_length_but_one visit pkt (sess_ref session)
                Hdistinct) as Hcount.
  rewrite decide_True in Hcount; [lia|].
  apply list_elem_of_fmap. exists (c, session). split; [done|].
  rewrite Hperm. by apply elem_of_map_to_list.
Qed.


Lemma worldcast_trace_elem σ (channels : list positive) pkt ignoredSession
    (ignoredChannel : option positive) (e : Event) :
  e ∈ worldcast_trace σ channels pkt ignoredSession ignoredChannel <->
  exists c srv, c ∈ channels /\ Some c <> ignoredChannel
    /\ σ !! c = Some srv /\ e ∈ BroadcastMHF srv pkt ignoredSession.
Proof.
  unfold worldcast_trace. rewrite list_elem_of_In, in_flat_map. split.
  - intros (c & Hc & He). apply list_elem_of_In in Hc, He.
    destruct (decide (Some c = ignoredChannel)); [by apply elem_of_nil in He|].
    destruct (σ !! c) as [srv|] eqn:Hsrv; [|by apply elem_of_nil in He].
    by exists c, srv.
  - intros (c & srv & Hc & Hign & Hsrv & He). exists c.
    split; [by apply list_elem_of_In|]. apply list_elem_of_In.
    rewrite decide_False by done. by rewrite Hsrv.
Qed.



End Fanout.

(** *** Announcements and chat *)

Section AnnouncementFanout.

Context {ClientContext ByteFrame : Type} `{!ByteFrameOps ByteFrame}.
Context (ps_Uint16 : ByteFrame -> string -> bool -> ByteFrame).
Context `{!MHFPacket (ClientContext:=ClientContext) (ByteFrame:=ByteFrame)
            MsgSysCastedBinary}.
Context (BroadcastTypeServer BinaryMessageTypeChat : Z).
Context (MsgBinChat_Build : MsgBinChat -> ByteFrame -> ByteFrame).
Implicit Types (σ : gmap positive (Server ClientContext))
  (s : Server ClientContext).

(** The trace of [BroadcastRaviente]: at most the one log entry, then
    the worldcast of the announcement with the text selected. *)
Lemma BroadcastRaviente_run σ (self : positive) s (ip port : Z)
    (stage : list Z) (_type : Z) :
  σ !! self = Some s ->
  (forall c, c ∈ Channels s -> is_Some (σ !! c)) ->
  exists (text : string) (logged : list Event),
    (logged = []
     \/ logged = [LogError "Unk raviente type" [FieldUint "_type" _type]])
    /\ BroadcastRaviente ps_Uint16 BroadcastTypeServer BinaryMessageTypeChat
         σ self ip port stage _type
       = (logged
            ++ worldcast_trace σ (Channels s)
                 (raviente_message ps_Uint16 BroadcastTypeServer
                    BinaryMessageTypeChat text ip port stage)
                 None (Some self),
          Go.Ok tt).
Proof.
  intros Hself Hall.
  assert (Hcast : forall text,
            WorldcastMHF σ s
              (raviente_message ps_Uint16 BroadcastTypeServer
                 BinaryMessageTypeChat text ip port stage)
              None (Some self)
            = (worldcast_trace σ (Channels s)
                 (raviente_message ps_Uint16 BroadcastTypeServer
                    BinaryMessageTypeChat text ip port stage)
                 None (Some self), Go.Ok tt)).
  { intros text. unfold WorldcastMHF.
    by rewrite WorldcastMHF_channels_trace. }
  assert (Hknown : forall key,
            (s' ← eff_deref σ self;
             text ← eff_ret (dict_get (dict s') key);
             WorldcastMHF σ s'
               (raviente_message ps_Uint16 BroadcastTypeServer
                  BinaryMessageTypeChat text ip port stage)
               None (Some self))
            = ([] ++ worldcast_trace σ (Channels s)
                 (raviente_message ps_Uint16 BroadcastTypeServer
                    BinaryMessageTypeChat (dict_get (dict s) key) ip port
                    stage)
                 None (Some self), Go.Ok tt)).
  { intros key. unfold eff_deref. rewrite Hself.
    rewrite !eff_bind_ret_l. apply Hcast. }
  destruct (decide (_type = 2)) as [->|H2];
    [eexists _, []; split; [by left|apply Hknown]|].
  destruct (decide (_type = 3)) as [->|H3];
    [eexists _, []; split; [by left|apply Hknown]|].
  destruct (decide (_type = 4)) as [->|H4];
    [eexists _, []; split; [by left|apply Hknown]|].
  destruct (decide (_type = 5)) as [->|H5];
    [eexists _, []; split; [by left|apply Hknown]|].
  exists "", [LogError "Unk raviente type" [FieldUint "_type" _type]].
  split; [by right|].
  unfold BroadcastRaviente, eff_deref.
  rewrite Hself, eff_bind_ret_l. cbv zeta.
  assert (Hdefault :
            match _type with
            | 2 => eff_ret (dict_get (dict s) "ravienteBerserk")
            | 3 => eff_ret (dict_get (dict s) "ravienteExtreme")
            | 4 => eff_ret (dict_get (dict s) "ravienteExtremeLimited")
            | 5 => eff_ret (dict_get (dict s) "ravienteBerserkSmall")
            | _ =>
                eff_emit
                  [LogError "Unk raviente type" [FieldUint "_type" _type]];;
                eff_ret ""
            end
            = (eff_emit
                 [LogError "Unk raviente type" [FieldUint "_type" _type]];;
               eff_ret "")).
  { destruct _type as [|p|p]; [done| |done].
    destruct p as [[[|[]|]|[|[]|]|]|[[|[]|]|[|[]|]|]|]; done. }
  rewrite Hdefault. unfold eff_emit, eff_ret.
  rewrite (eff_bind_ok _ tt). simpl fst. simpl snd.
  rewrite (eff_bind_ok _ ""). cbv beta.
  pose proof (Hcast "") as Hempty.
  unfold raviente_message, raviente_payload in Hempty.
  by rewrite Hempty.
Qed.

(** X13: a raviente announcement never reaches the announcing channel:
    every enqueue attempt of [BroadcastRaviente] goes to a session
    registered in a channel of [Channels] other than the receiver, and
    the trace holds at most one log entry before them. *)
Theorem BroadcastRaviente_skips_own_channel σ (self : positive) s
    (ip port : Z) (stage : list Z) (_type : Z) :
  σ !! self = Some s ->
  (forall c, c ∈ Channels s -> is_Some (σ !! c)) ->
  forall e,
    e ∈ (BroadcastRaviente ps_Uint16 BroadcastTypeServer
           BinaryMessageTypeChat σ self ip port stage _type).1 ->
    e = LogError "Unk raviente type" [FieldUint "_type" _type]
    \/ exists c session data,
         c ∈ Channels s /\ c <> self /\ session_in_channel σ c session
         /\ e = QueueSendNonBlocking (sess_ref session) data.
Proof.
  intros Hself Hall e He.
  destruct (BroadcastRaviente_run σ self s ip port stage _type Hself Hall)
    as (text & logged & Hlogged & Hrun).
  rewrite Hrun in He. simpl in He.
  apply elem_of_app in He as [He|He].
  - destruct Hlogged as [->| ->]; [by apply elem_of_nil in He|].
    apply list_elem_of_singleton in He. by left.
  - right. apply worldcast_trace_elem in He
      as (c & srv & Hc & Hign & Hsrv & He).
    apply BroadcastMHF_in_events in He as ([conn session] & Hin & _ & ->).
    apply elem_of_map_to_list in Hin.
    eexists c, session, _. split; [done|]. split; [congruence|].
    split; [by exists srv, conn|reflexivity].
Qed.

(** X14: a chat broadcast excludes nobody: every session of the channel
    gets exactly one enqueue attempt, the encoding for that session of a
    casted-binary chat message from character id 0xFFFFFFFF whose payload
    is the chat packet built, in little-endian order, with type 5, flags
    0x80, the text and the server's name as sender. *)
Theorem BroadcastChatMessage_reaches_all s (message : string)
    (visit : list (Conn * Session ClientContext)) :
  visit ≡ₚ map_to_list (sessions s) ->
  sessions_distinct s ->
  let pkt :=
    {| CharID := 4294967295;
       BroadcastType := 0;
       MessageType := BinaryMessageTypeChat;
       RawDataPayload :=
         Data
           (MsgBinChat_Build
              {| Unk0 := 0; chat_Type := 5; Flags := 128;
                 Message := message; SenderName := name s |}
              (SetLE NewByteFrame)) |} in
  let tr :=
    BroadcastChatMessage_in BinaryMessageTypeChat MsgBinChat_Build visit s
      message in
  (forall c session, sessions s !! c = Some session ->
     enqueues_to (sess_ref session) tr = [session_encoding pkt session])
  /\ length tr = size (sessions s).
Proof.
  intros Hperm Hdistinct pkt tr. unfold sessions_distinct in Hdistinct.
  rewrite <- Hperm in Hdistinct. split.
  - intros c session Hc.
    apply (BroadcastMHF_in_once visit pkt None (c, session));
      [done| |done].
    rewrite Hperm. by apply elem_of_map_to_list.
  - subst tr. unfold BroadcastChatMessage_in.
    by rewrite BroadcastMHF_in_length_all, Hperm, length_map_to_list.
Qed.

End AnnouncementFanout.

(** *** Shutdown and the goroutines *)

Section Lifecycle.

Context {ClientContext : Type}.
Context (getLangStrings : Server ClientContext -> gmap string string).
Context (newClientContext : ClientContext).
Implicit Types (st : System ClientContext) (s : Server ClientContext).

(** X15: on a started server whose handoff channel is open, [Shutdown]
    completes: the flag is set, the listener and the channel are closed,
    and sessions, stages and semaphores are left alone; its statements are
    the three shutdown steps of the system; and a second call panics on
    closing the closed channel, changing nothing. *)
Theorem Shutdown_completes_once s (open : bool) :
  listener s = Some open ->
  chan_closed (acceptConns s) = false ->
  let s1 := (Shutdown s).1 in
  (Shutdown s).2 = Go.Ok tt
  /\ isShuttingDown s1 = true /\ listener s1 = Some false
  /\ chan_closed (acceptConns s1) = true
  /\ sessions s1 = sessions s /\ stages s1 = stages s
  /\ semaphore s1 = semaphore s /\ semaphoreIndex s1 = semaphoreIndex s
  /\ Shutdown s1 = (s1, Go.Panic "close of closed channel")
  /\ (forall st, sys_server st = s -> sys_shutdown st = ShutdownNotCalled ->
        exists st',
          sys_run newClientContext st
            [StepShutdown; StepShutdown; StepShutdown] = Some st'
          /\ sys_server st' = s1 /\ sys_shutdown st' = ShutdownDone).
Proof.
  intros Hl Hopen. unfold Shutdown. simpl. rewrite Hl. simpl.
  rewrite Hopen. simpl.
  repeat (split; [reflexivity|]).
  intros [s' acc mgr pc ref tr] Hs Hpc. simpl in Hs, Hpc. subst s' pc.
  eexists. simpl. rewrite Hl. simpl. rewrite Hopen. simpl.
  by repeat split.
Qed.

Lemma shutdown_progress_step st (l : Step) st' :
  shutdown_progress st -> sys_step newClientContext st l = Some st' ->
  shutdown_progress st'.
Proof.
  intros Hinv Hstep. destruct st as [s acc mgr pc ref tr].
  unfold shutdown_progress in *. simpl in *.
  destruct l as [conn|err| | | |delConn]; simpl in Hstep.
  - destruct acc; try done. destruct (listener s) as [[|]|]; try done.
    injection Hstep as <-. simpl. intuition congruence.
  - destruct acc; try done. unfold acceptClients_error in Hstep.
    destruct (isShuttingDown s) eqn:Hflag; injection Hstep as <-; simpl;
      intuition congruence.
  - destruct pc; simpl in Hstep.
    + injection Hstep as <-. simpl. intuition congruence.
    + destruct (listener s); [|done]. injection Hstep as <-. simpl.
      intuition congruence.
    + destruct (chan_closed (acceptConns s)) eqn:Hc; [done|].
      injection Hstep as <-. simpl. intuition congruence.
    + done.
  - destruct mgr; try done. unfold recv_acceptConns in Hstep.
    destruct (chan_closed (acceptConns s)) eqn:Hc.
    + injection Hstep as <-. simpl. intuition congruence.
    + destruct acc; try done. injection Hstep as <-. simpl.
      intuition congruence.
  - destruct mgr as [|newConn|]; try done.
    unfold manageSessions_newConn in Hstep.
    destruct newConn as [c|].
    + injection Hstep as <-. simpl. intuition congruence.
    + destruct (isShuttingDown s) eqn:Hflag; injection Hstep as <-; simpl;
        intuition congruence.
  - destruct mgr; try done. injection Hstep as <-. simpl.
    intuition congruence.
Qed.

Lemma shutdown_progress_run (steps : list Step) st st' :
  shutdown_progress st -> sys_run newClientContext st steps = Some st' ->
  shutdown_progress st'.
Proof.
  revert st. induction steps as [|l steps IH]; intros st Hinv Hrun.
  - by injection Hrun as <-.
  - simpl in Hrun.
    destruct (sys_step newClientContext st l) as [st1|] eqn:Hstep; [|done].
    apply (IH st1); [by eapply shutdown_progress_step|done].
Qed.

(** X16: in every state the started system reaches, the goroutines leave
    their loops only because of [Shutdown]: a stopped acceptor implies
    the flag is set; a returned manager implies [Shutdown] ran to its
    end, so the flag is set and the handoff channel closed; and the flag
    is never set, nor the channel closed, before [Shutdown] is called. *)
Theorem goroutines_exit_only_on_shutdown (config : Config)
    (steps : list Step) st :
  sys_run newClientContext (sys_init getLangStrings config) steps = Some st ->
  (sys_acceptor st = AcceptorStopped ->
     isShuttingDown (sys_server st) = true)
  /\ (sys_manager st = ManagerReturned ->
       sys_shutdown st = ShutdownDone
       /\ isShuttingDown (sys_server st) = true
       /\ chan_closed (acceptConns (sys_server st)) = true)
  /\ (sys_shutdown st = ShutdownNotCalled ->
       isShuttingDown (sys_server st) = false
       /\ chan_closed (acceptConns (sys_server st)) = false).
Proof.
  intros Hrun.
  assert (Hinit : shutdown_progress (sys_init getLangStrings config)).
  { unfold shutdown_progress. simpl. intuition congruence. }
  pose proof (shutdown_progress_run steps _ st Hinit Hrun) as Hinv.
  unfold shutdown_progress in Hinv.
  destruct (isShuttingDown (sys_server st)),
    (chan_closed (acceptConns (sys_server st))); intuition congruence.
Qed.




(** X18: registering a connection and removing it again: after the
    manager's case body for a connection (outside the shutdown exit) the
    connection maps to the session just made and every other connection
    to what it did; the removal that follows takes exactly that entry
    away, so a connection that was new leaves the session set as it was;
    and removing a connection that is not registered changes nothing. *)
Theorem session_set_round_trip (ref : positive) s (newConn : Conn) :
  isShuttingDown s = false \/ newConn <> None ->
  let s1 := (manageSessions_newConn newClientContext ref s newConn).1.1 in
  sessions s1 !! newConn = Some (NewSession newClientContext ref s newConn)
  /\ (forall c, c <> newConn -> sessions s1 !! c = sessions s !! c)
  /\ sessions (manageSessions_delConn s1 newConn)
     = delete newConn (sessions s)
  /\ (sessions s !! newConn = None ->
      sessions (manageSessions_delConn s1 newConn) = sessions s)
  /\ (forall c, sessions s !! c = None ->
        sessions (manageSessions_delConn s c) = sessions s).
Proof.
  intros Hlive.
  assert (manageSessions_newConn newClientContext ref s newConn
          = (set_sessions
               (<[newConn := NewSession newClientContext ref s newConn]>
                  (sessions s)) s,
             [SessionStart ref], LoopContinue)) as ->.
  { unfold manageSessions_newConn.
    destruct newConn as [c|]; [done|].
    destruct Hlive as [->|Hne]; done. }
  simpl. split; [by rewrite lookup_insert_eq|].
  split; [by intros c Hne; rewrite lookup_insert_ne|].
  split; [by rewrite delete_insert_eq|].
  split.
  - intros Hnew. rewrite delete_insert_eq. by apply delete_id.
  - intros c Hc. by apply delete_id.
Qed.

(** X23: in every state the started system reaches, no two connections
    of the session set share a session: the manager makes a new session
    for every connection it registers. *)
Theorem sessions_pairwise_distinct (config : Config) (steps : list Step) st :
  sys_run newClientContext (sys_init getLangStrings config) steps = Some st ->
  sessions_distinct (sys_server st)
  /\ (forall c1 c2 session1 session2,
        sessions (sys_server st) !! c1 = Some session1 ->
        sessions (sys_server st) !! c2 = Some session2 ->
        sess_ref session1 = sess_ref session2 -> c1 = c2).
Proof.
  intros Hrun.
  pose proof (manager_sessions_distinct getLangStrings newClientContext
                config steps st Hrun) as Hdistinct.
  split; [exact Hdistinct|].
  intros c1 c2 session1 session2 H1 H2 Href.
  unfold sessions_distinct in Hdistinct.
  apply elem_of_map_to_list in H1, H2.
  apply list_elem_of_lookup in H1 as [i1 H1], H2 as [i2 H2].
  assert (i1 = i2) as ->.
  { apply (NoDup_lookup _ i1 i2 (sess_ref session1) Hdistinct).
    - by rewrite list_lookup_fmap, H1.
    - rewrite list_lookup_fmap, H2. simpl. by rewrite Href. }
  rewrite H1 in H2. by injection H2.
Qed.

End Lifecycle.

(** *** Guild members *)

Section GuildMembers.

Context {Row : Type}.
Context (Queryx : string -> list Z -> error + list Row).
Context (scan_row : Row -> error + GuildMember).
Context (Exec : string -> list Z -> option error).

(** X19: who may recruit: every sub-leader, every leader and every
    member flagged as recruiter can, and a member cannot exactly when it
    is none of the three. *)
Theorem CanRecruit_cases (gm : GuildMember) :
  (IsSubLeader gm = true -> CanRecruit gm = true)
  /\ (IsLeader gm = true -> CanRecruit gm = true)
  /\ (Recruiter gm = true -> CanRecruit gm = true)
  /\ (CanRecruit gm = false <->
      Recruiter gm = false /\ 3 < OrderIndex gm /\ IsLeader gm = false).
Proof.
  unfold CanRecruit, IsSubLeader.
  destruct (Recruiter gm), (Z.leb_spec (OrderIndex gm) 3), (IsLeader gm);
    repeat split; intros; try done; try lia; intuition (try done; lia).
Qed.

Lemma GetGuildMembers_rows_decoded (rows : list Row)
    (members : list GuildMember) (acc : list (option GuildMember)) :
  Forall2 (fun r member => scan_row r = inr member) rows members ->
  GetGuildMembers_rows scan_row rows acc
    = ([], (Some (acc ++ (Some <$> members)), None)).
Proof.
  intros Hall. revert acc.
  induction Hall as [|r member rows members Hr _ IH]; intros acc; simpl.
  - by rewrite app_nil_r.
  - unfold buildGuildMemberObjectFromDBResult, Rows_StructScan. simpl.
    rewrite Hr, IH. by rewrite <- app_assoc.
Qed.

Lemma GetGuildMembers_rows_failed (before after : list Row) (r : Row)
    (err : string) (acc : list (option GuildMember)) :
  Forall (fun r => exists member, scan_row r = inr member) before ->
  scan_row r = inl err ->
  GetGuildMembers_rows scan_row (before ++ r :: after) acc
    = ([LogError "failed to retrieve guild data from database"
          [FieldError err]],
       (None, Some err)).
Proof.
  intros Hbefore Hr. revert acc.
  induction Hbefore as [|r' before [member Hr'] _ IH]; intros acc; simpl.
  - unfold buildGuildMemberObjectFromDBResult, Rows_StructScan. simpl.
    by rewrite Hr.
  - unfold buildGuildMemberObjectFromDBResult, Rows_StructScan. simpl.
    by rewrite Hr', IH.
Qed.

(** X20: when the query succeeds and every row decodes,
    [GetGuildMembers] returns the decoded members, one per row and in
    row order, with no error and nothing logged; for a guild without
    rows that is the empty list, not nil. *)
Theorem GetGuildMembers_all_rows (guildID : Z) (applicants : bool)
    (rows : list Row) (members : list GuildMember) :
  Queryx guildMembersSQL [guildID; Z.b2z applicants] = inr rows ->
  Forall2 (fun r member => scan_row r = inr member) rows members ->
  GetGuildMembers Queryx scan_row guildID applicants
    = ([], (Some (Some <$> members), None))
  /\ length members = length rows.
Proof.
  intros Hquery Hall. split.
  - unfold GetGuildMembers. rewrite Hquery.
    by rewrite (GetGuildMembers_rows_decoded rows members []).
  - symmetry. by eapply Forall2_length.
Qed.

(** X21: [GetGuildMembers] gives up at the first row that fails to
    decode: it returns that row's error with a nil list, the members
    decoded before it are dropped, the rows after it are not looked at,
    and the failure is logged once. *)
Theorem GetGuildMembers_first_failure (guildID : Z) (applicants : bool)
    (before after : list Row) (r : Row) (err : string) :
  Queryx guildMembersSQL [guildID; Z.b2z applicants]
    = inr (before ++ r :: after) ->
  Forall (fun r => exists member, scan_row r = inr member) before ->
  scan_row r = inl err ->
  GetGuildMembers Queryx scan_row guildID applicants
    = ([LogError "failed to retrieve guild data from database"
          [FieldError err]],
       (None, Some err)).
Proof.
  intros Hquery Hbefore Hr. unfold GetGuildMembers. rewrite Hquery.
  by apply GetGuildMembers_rows_failed.
Qed.

Lemma GetGuildMembers_rows_outcome (rows : list Row)
    (acc : list (option GuildMember)) :
  (exists members,
     GetGuildMembers_rows scan_row rows acc = ([], (Some members, None)))
  \/ (exists err,
        GetGuildMembers_rows scan_row rows acc
          = ([LogError "failed to retrieve guild data from database"
                [FieldError err]],
             (None, Some err))).
Proof.
  revert acc. induction rows as [|r rows IH]; intros acc; simpl.
  - left. by eexists.
  - unfold buildGuildMemberObjectFromDBResult, Rows_StructScan. simpl.
    destruct (scan_row r) as [err|member].
    + right. by exists err.
    + destruct (IH (acc ++ [Some member])) as [[members ->]|[err ->]].
      * left. by eexists.
      * right. by exists err.
Qed.

(** X22: the data-access functions log a failure exactly once and never
    return a result beside an error: each of [GetCharacterGuildData],
    [GetGuildMembers] and [Save] logs nothing when it returns no error,
    and when it returns an error it returns nil with it and has logged
    one error entry, naming that error except where the query for one
    character failed. *)
Theorem guild_data_errors_logged_once :
  (forall charID',
     match GetCharacterGuildData Queryx scan_row charID' with
     | (tr, (_, None)) => tr = []
     | (tr, (member, Some err)) =>
         member = None /\ exists msg fields, tr = [LogError msg fields]
     end)
  /\ (forall guildID applicants,
        match GetGuildMembers Queryx scan_row guildID applicants with
        | (tr, (_, None)) => tr = []
        | (tr, (members, Some err)) =>
            members = None
            /\ exists msg fields,
                 tr = [LogError msg fields] /\ FieldError err ∈ fields
        end)
  /\ (forall gm,
        match Save Exec gm with
        | (tr, None) => tr = []
        | (tr, Some err) =>
            exists msg fields,
              tr = [LogError msg fields] /\ FieldError err ∈ fields
        end).
Proof.
  split; [|split].
  - intros charID'. unfold GetCharacterGuildData.
    destruct (Queryx characterGuildDataSQL [charID']) as [err|[|r rows]].
    + split; [done|]. by eexists _, _.
    + done.
    + simpl. unfold buildGuildMemberObjectFromDBResult, Rows_StructScan.
      simpl. destruct (scan_row r) as [err|member]; [|done].
      split; [done|]. by eexists _, _.
  - intros guildID applicants. unfold GetGuildMembers.
    destruct (Queryx guildMembersSQL [guildID; Z.b2z applicants])
      as [err|rows].
    + split; [done|]. eexists _, _. split; [done|]. by left.
    + destruct (GetGuildMembers_rows_outcome rows [])
        as [[members ->]|[err ->]]; [done|].
      split; [done|]. eexists _, _. split; [done|]. by left.
  - intros gm. unfold Save.
    destruct (Exec _ _) as [err|]; [|done].
    eexists _, _. split; [done|]. by left.
Qed.

End GuildMembers.

(** ** The further properties at concrete inputs *)



Lemma serverAtTop_ids_distinct :
  ids_distinct (semaphore Examples.serverAtTop).
Proof.
  intros k1 k2 sem1 sem2 H1 H2 Heq.
  apply elem_of_map_to_list in H1, H2.
  set (entries := map_to_list _) in H1, H2. vm_compute in entries.
  subst entries.
  repeat (apply elem_of_cons in H1 as [H1|H1]; [injection H1 as -> ->|]);
    [..|by apply elem_of_nil in H1];
    (repeat (apply elem_of_cons in H2 as [H2|H2]; [injection H2 as -> ->|]);
     [..|by apply elem_of_nil in H2]); done.
Qed.

(** The id 9 handed out at the top of the range is given to a new
    semaphore "quest_c". *)
Lemma NextSemaphoreID_keeps_ids_distinct_witness :
  ids_distinct (semaphore Examples.serverAtTop)
  /\ NextSemaphoreID 3 Examples.serverAtTop
     = Some (9, set_semaphoreIndex 9 Examples.serverAtTop)
  /\ ids_distinct
       (semaphore
          (set_semaphore
             (<["quest_c" := {| id_semaphore := "quest_c"; sem_id := 9;
                                sem_clients := {[ 1%positive ]} |}]>
                (semaphore (set_semaphoreIndex 9 Examples.serverAtTop)))
             (set_semaphoreIndex 9 Examples.serverAtTop))).
Proof.
  assert (Hrun : NextSemaphoreID 3 Examples.serverAtTop
                 = Some (9, set_semaphoreIndex 9 Examples.serverAtTop))
    by (vm_compute; reflexivity).
  split; [exact serverAtTop_ids_distinct|]. split; [exact Hrun|].
  exact (NextSemaphoreID_keeps_ids_distinct 3 Examples.serverAtTop 9 _
           "quest_c" {[ 1%positive ]} serverAtTop_ids_distinct Hrun).
Defined.


(** Two joined sessions under the lower threshold: the multiplier 2. *)
Lemma GetRaviMultiplier_bounds_witness :
  GetRaviMultiplier Examples.getRaviSemaphore NewRaviente
    (Examples.serverWithRavi [1; 2]%positive) = Go.Ok 2
  /\ 0 <= 2 <= 24
  /\ (2 = 0 <->
      Examples.getRaviSemaphore (Examples.serverWithRavi [1; 2]%positive)
        = None)
  /\ (maxPlayers (register NewRaviente) <= 8 -> 2 <= 4).
Proof.
  assert (Hv : GetRaviMultiplier Examples.getRaviSemaphore NewRaviente
                 (Examples.serverWithRavi [1; 2]%positive) = Go.Ok 2)
    by (vm_compute; reflexivity).
  split; [exact Hv|].
  exact (GetRaviMultiplier_bounds Examples.getRaviSemaphore NewRaviente
           (Examples.serverWithRavi [1; 2]%positive) 2 Hv).
Defined.

(** One joined session gives 4, three give 1. *)
Lemma GetRaviMultiplier_antitone_witness :
  Examples.getRaviSemaphore (Examples.serverWithRavi [1]%positive)
    = Some (Examples.raviSema [1]%positive)
  /\ Examples.getRaviSemaphore (Examples.serverWithRavi [1; 2; 3]%positive)
     = Some (Examples.raviSema [1; 2; 3]%positive)
  /\ occupancy (Examples.raviSema [1]%positive)
     <= occupancy (Examples.raviSema [1; 2; 3]%positive)
  /\ GetRaviMultiplier Examples.getRaviSemaphore NewRaviente
       (Examples.serverWithRavi [1]%positive) = Go.Ok 4
  /\ GetRaviMultiplier Examples.getRaviSemaphore NewRaviente
       (Examples.serverWithRavi [1; 2; 3]%positive) = Go.Ok 1
  /\ 1 <= 4.
Proof.
  assert (Hle : occupancy (Examples.raviSema [1]%positive)
                <= occupancy (Examples.raviSema [1; 2; 3]%positive))
    by (by vm_compute).
  assert (Hv1 : GetRaviMultiplier Examples.getRaviSemaphore NewRaviente
                  (Examples.serverWithRavi [1]%positive) = Go.Ok 4)
    by (vm_compute; reflexivity).
  assert (Hv2 : GetRaviMultiplier Examples.getRaviSemaphore NewRaviente
                  (Examples.serverWithRavi [1; 2; 3]%positive) = Go.Ok 1)
    by (vm_compute; reflexivity).
  split; [reflexivity|]. split; [reflexivity|]. split; [exact Hle|].
  split; [exact Hv1|]. split; [exact Hv2|].
  exact (GetRaviMultiplier_antitone Examples.getRaviSemaphore NewRaviente
           (Examples.serverWithRavi [1]%positive)
           (Examples.serverWithRavi [1; 2; 3]%positive)
           _ _ 4 1 eq_refl eq_refl Hle Hv1 Hv2).
Defined.

(** The lookup of character 42 on the server with one object of its
    own. *)
Lemma FindObjectByChar_sound_witness :
  stage_visit Examples.serverWithObject
    (range (stages Examples.serverWithObject))
    (fun k =>
       from_option object_ids [] (stages Examples.serverWithObject !! k))
  /\ exists res,
       FindObjectByChar Examples.serverWithObject 42 = Go.Ok res
       /\ (forall o, res = Some o ->
             exists k i, owns_object Examples.serverWithObject 42 k i o)
       /\ (res = None <->
           forall k i o, ~ owns_object Examples.serverWithObject 42 k i o).
Proof.
  split; [exact (FindObjectByChar_visit Examples.serverWithObject)|].
  exact (FindObjectByChar_sound Examples.serverWithObject 42 _ _
           (FindObjectByChar_visit Examples.serverWithObject)).
Defined.

(** No object of character 42 on the fresh example server. *)
Lemma FindObjectByChar_fresh_server_witness :
  stage_visit (NewServer Examples.getLangStrings Examples.config)
    (range (stages (NewServer Examples.getLangStrings Examples.config)))
    (fun k =>
       from_option object_ids []
         (stages (NewServer Examples.getLangStrings Examples.config) !! k))
  /\ FindObjectByChar (NewServer Examples.getLangStrings Examples.config) 42
     = Go.Ok None.
Proof.
  split; [exact (FindObjectByChar_visit _)|].
  exact (FindObjectByChar_fresh_server Examples.getLangStrings
           Examples.config 42 _ _ (FindObjectByChar_visit _)).
Defined.

Lemma session_visit_range {ClientContext : Type}
    (σ : gmap positive (Server ClientContext)) :
  session_visit σ
    (fun c => from_option (fun srv => range (sessions srv)) [] (σ !! c)).
Proof. intros c srv Hsrv. by rewrite Hsrv. Qed.

(** Looking for character 104 across the two channels of the cluster. *)
Lemma FindSessionByCharID_spec_witness :
  (forall c, c ∈ [1%positive; 2%positive] ->
     is_Some (Examples.cluster !! c))
  /\ session_visit Examples.cluster
       (fun c =>
          from_option (fun srv => range (sessions srv)) []
            (Examples.cluster !! c))
  /\ exists res,
       FindSessionByCharID Examples.cluster
         (Examples.withChannels [1%positive; 2%positive] Examples.lobby) 104
         = Go.Ok res
       /\ (forall session, res = Some session ->
             charID session = 104
             /\ exists c, c ∈ [1%positive; 2%positive]
                  /\ session_in_channel Examples.cluster c session)
       /\ (res = None <->
           forall c session, c ∈ [1%positive; 2%positive] ->
             session_in_channel Examples.cluster c session ->
             charID session <> 104).
Proof.
  split; [exact cluster_channels_exist|].
  split; [exact (session_visit_range Examples.cluster)|].
  exact (FindSessionByCharID_spec Examples.cluster
           [1%positive; 2%positive] _ 104 cluster_channels_exist
           (session_visit_range Examples.cluster)).
Defined.

(** The sessions of the lobby visited in one order and in the reverse
    order. *)
Lemma BroadcastMHF_order_irrelevant_witness :
  reverse (map_to_list (sessions Examples.lobby))
    ≡ₚ map_to_list (sessions Examples.lobby)
  /\ BroadcastMHF_in (ByteFrameOps0:=Examples.frameOps)
       (MHFPacket1:=Examples.castedBinaryPacket)
       (reverse (map_to_list (sessions Examples.lobby)))
       Examples.chatPacket (Some 2%positive)
     ≡ₚ BroadcastMHF_in (ByteFrameOps0:=Examples.frameOps)
          (MHFPacket1:=Examples.castedBinaryPacket)
          (map_to_list (sessions Examples.lobby))
          Examples.chatPacket (Some 2%positive).
Proof.
  split; [apply reverse_Permutation|].
  exact (BroadcastMHF_order_irrelevant (ByteFrameOps0:=Examples.frameOps)
           (MHFPacket0:=Examples.castedBinaryPacket)
           _ _ Examples.chatPacket (Some 2%positive)
           (reverse_Permutation _)).
Defined.

(** Three connections in the lobby: three enqueues, or two when one of
    the sessions is excluded. *)
Lemma BroadcastMHF_count_witness :
  map_to_list (sessions Examples.lobby)
    ≡ₚ map_to_list (sessions Examples.lobby)
  /\ sessions_distinct Examples.lobby
  /\ length (BroadcastMHF (ByteFrameOps0:=Examples.frameOps)
               (MHFPacket1:=Examples.castedBinaryPacket)
               Examples.lobby Examples.chatPacket None) = 3%nat
  /\ S (length (BroadcastMHF (ByteFrameOps0:=Examples.frameOps)
                  (MHFPacket1:=Examples.castedBinaryPacket)
                  Examples.lobby Examples.chatPacket (Some 2%positive)))
     = 3%nat.
Proof.
  split; [reflexivity|]. split; [exact lobby_sessions_distinct|].
  destruct (BroadcastMHF_count (ByteFrameOps0:=Examples.frameOps)
              (MHFPacket0:=Examples.castedBinaryPacket)
              Examples.lobby Examples.chatPacket
              (map_to_list (sessions Examples.lobby))
              (reflexivity _) lobby_sessions_distinct) as [Hall Hbut].
  split; [exact Hall|].
  exact (Hbut (Some 12%positive) (Examples.session 2 41) eq_refl).
Defined.



(** An announcement from the lobby with the unknown code 9: whatever its
    trace holds is the log entry or an enqueue to a session of the
    annex. *)
Lemma BroadcastRaviente_skips_own_channel_witness :
  Examples.cluster !! 1%positive
    = Some (Examples.withChannels [1%positive; 2%positive] Examples.lobby)
  /\ (forall c,
        c ∈ Channels
              (Examples.withChannels [1%positive; 2%positive] Examples.lobby) ->
        is_Some (Examples.cluster !! c))
  /\ forall e,
       e ∈ (BroadcastRaviente (ByteFrameOps0:=Examples.frameOps)
              Examples.ps_Uint16 (MHFPacket0:=Examples.castedBinaryPacket)
              Examples.BroadcastTypeServer Examples.BinaryMessageTypeChat
              Examples.cluster 1%positive 2130706433 54001 [1; 2; 3] 9).1 ->
       e = LogError "Unk raviente type" [FieldUint "_type" 9]
       \/ exists c session data,
            c ∈ Channels
                  (Examples.withChannels [1%positive; 2%positive]
                     Examples.lobby)
            /\ c <> 1%positive
            /\ session_in_channel Examples.cluster c session
            /\ e = QueueSendNonBlocking (sess_ref session) data.
Proof.
  split; [reflexivity|]. split; [exact cluster_channels_exist|].
  exact (BroadcastRaviente_skips_own_channel
           (ByteFrameOps0:=Examples.frameOps) Examples.ps_Uint16
           (MHFPacket0:=Examples.castedBinaryPacket)
           Examples.BroadcastTypeServer Examples.BinaryMessageTypeChat
           Examples.cluster 1%positive
           (Examples.withChannels [1%positive; 2%positive] Examples.lobby)
           2130706433 54001 [1; 2; 3] 9 eq_refl cluster_channels_exist).
Defined.

(** The chat message "hi" in the lobby: session 2, which a broadcast
    could exclude, is enqueued to like the others. *)
Lemma BroadcastChatMessage_reaches_all_witness :
  map_to_list (sessions Examples.lobby)
    ≡ₚ map_to_list (sessions Examples.lobby)
  /\ sessions_distinct Examples.lobby
  /\ enqueues_to 2
       (BroadcastChatMessage (ByteFrameOps0:=Examples.frameOps)
          (MHFPacket0:=Examples.castedBinaryPacket)
          Examples.BinaryMessageTypeChat Scenarios.buildChat
          Examples.lobby "hi")
     = [[0; 31; 41; 255; 255; 255; 255; 0; 1; 5; 128; 99; 104; 97; 110;
         110; 101; 108; 0; 104; 105; 0]]
  /\ length
       (BroadcastChatMessage (ByteFrameOps0:=Examples.frameOps)
          (MHFPacket0:=Examples.castedBinaryPacket)
          Examples.BinaryMessageTypeChat Scenarios.buildChat
          Examples.lobby "hi") = 3%nat.
Proof.
  split; [reflexivity|]. split; [exact lobby_sessions_distinct|].
  destruct (BroadcastChatMessage_reaches_all
              (ByteFrameOps0:=Examples.frameOps)
              (MHFPacket0:=Examples.castedBinaryPacket)
              Examples.BinaryMessageTypeChat Scenarios.buildChat
              Examples.lobby "hi" (map_to_list (sessions Examples.lobby))
              (reflexivity _) lobby_sessions_distinct) as [Hone Hlen].
  split; [|exact Hlen].
  exact (Hone (Some 12%positive) (Examples.session 2 41) eq_refl).
Defined.

(** The shutdown of the started example server. *)
Lemma Shutdown_completes_once_witness :
  listener Scenarios.started = Some true
  /\ chan_closed (acceptConns Scenarios.started) = false
  /\ (Shutdown Scenarios.started).2 = Go.Ok tt
  /\ isShuttingDown (Shutdown Scenarios.started).1 = true
  /\ Shutdown (Shutdown Scenarios.started).1
     = ((Shutdown Scenarios.started).1,
        Go.Panic "close of closed channel").
Proof.
  split; [reflexivity|]. split; [reflexivity|].
  destruct (Shutdown_completes_once 40 Scenarios.started true
              eq_refl eq_refl)
    as (Hok & Hflag & _ & _ & _ & _ & _ & _ & Htwice & _).
  split; [exact Hok|]. split; [exact Hflag|exact Htwice].
Defined.

(** After the shutdown steps and the manager's last case body, both
    goroutines are out of their loops and [Shutdown] has run to its
    end. *)
Lemma goroutines_exit_only_on_shutdown_witness :
  exists st,
    sys_run 40 (sys_init Examples.getLangStrings Examples.config)
      Scenarios.returnedSteps = Some st
    /\ sys_acceptor st = AcceptorStopped
    /\ sys_manager st = ManagerReturned
    /\ sys_shutdown st = ShutdownDone
    /\ isShuttingDown (sys_server st) = true
    /\ chan_closed (acceptConns (sys_server st)) = true.
Proof.
  destruct (sys_run 40 (sys_init Examples.getLangStrings Examples.config)
              Scenarios.returnedSteps) as [st|] eqn:Hrun;
    [|vm_compute in Hrun; discriminate].
  exists st. split; [reflexivity|].
  assert (Hacc : sys_acceptor st = AcceptorStopped).
  { vm_compute in Hrun. by injection Hrun as <-. }
  assert (Hmgr : sys_manager st = ManagerReturned).
  { vm_compute in Hrun. by injection Hrun as <-. }
  destruct (goroutines_exit_only_on_shutdown Examples.getLangStrings 40
              Examples.config Scenarios.returnedSteps st Hrun)
    as (_ & Hreturned & _).
  destruct (Hreturned Hmgr) as (Hdone & Hflag & Hclosed).
  split; [exact Hacc|]. split; [exact Hmgr|]. split; [exact Hdone|].
  split; [exact Hflag|exact Hclosed].
Defined.


(** In the same state the sessions of the session set are pairwise
    distinct. *)
Lemma sessions_pairwise_distinct_witness :
  exists st,
    sys_run 40 (sys_init Examples.getLangStrings Examples.config)
      Scenarios.returnedSteps = Some st
    /\ sessions_distinct (sys_server st).
Proof.
  destruct (sys_run 40 (sys_init Examples.getLangStrings Examples.config)
              Scenarios.returnedSteps) as [st|] eqn:Hrun;
    [|vm_compute in Hrun; discriminate].
  exists st. split; [reflexivity|].
  exact (proj1 (sessions_pairwise_distinct Examples.getLangStrings 40
                  Examples.config Scenarios.returnedSteps st Hrun)).
Defined.

(** Connection 5 registered on the fresh example server and removed
    again. *)
Lemma session_set_round_trip_witness :
  (isShuttingDown Examples.server0 = false
   \/ Some 5%positive <> (None : Conn))
  /\ sessions
       (manageSessions_delConn
          (manageSessions_newConn 40 1%positive Examples.server0
             (Some 5%positive)).1.1
          (Some 5%positive))
     = sessions Examples.server0.
Proof.
  assert (Hlive : isShuttingDown Examples.server0 = false
                  \/ Some 5%positive <> (None : Conn)) by (by left).
  split; [exact Hlive|].
  destruct (session_set_round_trip 40 1%positive Examples.server0
              (Some 5%positive) Hlive) as (_ & _ & _ & Hback & _).
  exact (Hback eq_refl).
Defined.

(** Guild 1 of the example database: both rows decode. *)
Lemma GetGuildMembers_all_rows_witness :
  Scenarios.Queryx guildMembersSQL [1; Z.b2z false] = inr [8; 9]
  /\ (exists members,
        Forall2 (fun r member => Scenarios.scan_row r = inr member)
          [8; 9] members
        /\ GetGuildMembers Scenarios.Queryx Scenarios.scan_row 1 false
           = ([], (Some (Some <$> members), None))
        /\ length members = 2%nat).
Proof.
  split; [reflexivity|].
  destruct (Scenarios.scan_row 8) as [err|member8] eqn:H8;
    [vm_compute in H8; discriminate|].
  destruct (Scenarios.scan_row 9) as [err|member9] eqn:H9;
    [vm_compute in H9; discriminate|].
  exists [member8; member9].
  assert (Hall : Forall2 (fun r member => Scenarios.scan_row r = inr member)
                   [8; 9] [member8; member9]).
  { constructor; [exact H8|]. constructor; [exact H9|constructor]. }
  split; [exact Hall|].
  exact (GetGuildMembers_all_rows Scenarios.Queryx Scenarios.scan_row 1
           false [8; 9] _ eq_refl Hall).
Defined.

(** Guild 2 of the example database: the second row does not decode. *)
Lemma GetGuildMembers_first_failure_witness :
  Scenarios.Queryx guildMembersSQL [2; Z.b2z false]
    = inr ([8] ++ 0 :: [9])
  /\ Forall (fun r => exists member, Scenarios.scan_row r = inr member) [8]
  /\ Scenarios.scan_row 0 = inl "converting NULL to uint32 is unsupported"
  /\ GetGuildMembers Scenarios.Queryx Scenarios.scan_row 2 false
     = ([LogError "failed to retrieve guild data from database"
           [FieldError "converting NULL to uint32 is unsupported"]],
        (None, Some "converting NULL to uint32 is unsupported")).
Proof.
  assert (Hbefore : Forall (fun r => exists member,
                              Scenarios.scan_row r = inr member) [8]).
  { constructor; [by eexists|constructor]. }
  split; [reflexivity|]. split; [exact Hbefore|]. split; [reflexivity|].
  exact (GetGuildMembers_first_failure Scenarios.Queryx Scenarios.scan_row
           2 false [8] [9] 0 _ eq_refl Hbefore eq_refl).
Defined.
